(** * pyplico: the packet reader ([src/pyplico/packetReader.py])

    A shallow embedding of the class [PacketReader]: its constructor, the
    eager reader [read_packets], the generator [read_itr] and the two
    getters.  The file object opened by the constructor, the generator frame
    and the text printed in verbose mode are threaded explicitly; Python
    exceptions are values of [exn] carried by [result].

    Three collaborators are not part of the file and stay parameters:
    - [dpkt]: the link-layer decoder [Ethernet], which returns or raises,
      and the type of decoded network-layer packets [IP]; the capture
      timestamps [Timestamp] with their comparison [ts_leb] (Python floats
      built from two integers, so never NaN: the comparison is a total
      preorder);
    - [pyplico.flowtable]: the class [FlowTable] with its constructor and
      [push];
    - the file system: [fs] maps a path to what a [dpkt.pcap.Reader] makes
      of the file behind it (the exception its header raises, if any, the
      whole records, and the exception its end raises, if any), or to
      [None] when [open] fails. *)

From Stdlib Require Import List String Ascii Strings.Byte Bool Arith Lia ZArith.
From Stdlib Require Import Sorted Permutation DecimalString.
Import ListNotations.
Local Open Scope string_scope.
Local Open Scope list_scope.

(** ** Python values *)

Definition bytes := list byte.

(** The exceptions that occur: the three the class raises itself, and three
    that dpkt and the file layer can raise under it. *)
Inductive exn : Type :=
| ValueError (msg : string)
| FileNotFoundError (msg : string)
| NotImplementedError (msg : string)
| NeedData (msg : string)    (* [dpkt.dpkt.NeedData], a [dpkt.dpkt.UnpackError] *)
| IndexError (msg : string)
| OSError (msg : string).

(** Whether [except ValueError] catches the exception. *)
Definition is_ValueError (e : exn) : bool :=
  match e with
  | ValueError _ => true
  | _ => false
  end.

(** Whether [except dpkt.dpkt.UnpackError] catches the exception. *)
Definition is_UnpackError (e : exn) : bool :=
  match e with
  | NeedData _ => true
  | _ => false
  end.

Inductive result (A : Type) : Type :=
| Ok (a : A)
| Raise (e : exn).
Arguments Ok {A} a.
Arguments Raise {A} e.

(** Truth value of an argument that is [None] or a string. *)
Definition truthy (o : option string) : bool :=
  match o with
  | None => false
  | Some s => negb (String.eqb s "")
  end.

(** What an f-string prints for such an argument. *)
Definition py_str (o : option string) : string :=
  match o with
  | None => "None"
  | Some s => s
  end.

(** What an f-string prints for a non-negative int. *)
Definition str_of_nat (n : nat) : string :=
  NilZero.string_of_uint (Nat.to_uint n).

(** ** dpkt *)

(** Outcome of [dpkt.ethernet.Ethernet(packet)] as the reader observes it. *)
Inductive decoded (IP : Type) : Type :=
| EthIP (ip : IP)        (* returned, and [eth.data] is a [dpkt.ip.IP] *)
| EthOther               (* returned, and [eth.data] is anything else *)
| UnpackError            (* raised [dpkt.dpkt.UnpackError] *)
| EthRaises (e : exn).   (* raised [e], whatever its class *)
Arguments EthIP {IP} ip.
Arguments EthOther {IP}.
Arguments UnpackError {IP}.
Arguments EthRaises {IP} e.

(** What [dpkt.pcap.Reader] makes of the bytes of a file:
    - [cf_header]: the exception the constructor raises on the file header
      ([ValueError] "invalid tcpdump header" on a file that is no capture,
      [NeedData] on one shorter than a header); [None] for a capture;
    - [cf_records]: the whole records, each a timestamp and a frame;
    - [cf_tail]: the exception the iteration raises behind the last whole
      record ([NeedData] on a record header cut short); [None] when the
      file ends there and the iteration stops. *)
Record capture_file (Timestamp : Type) : Type := mk_capture {
  cf_header : option exn;
  cf_records : list (Timestamp * bytes);
  cf_tail : option exn
}.
Arguments mk_capture {Timestamp} _ _ _.
Arguments cf_header {Timestamp} _.
Arguments cf_records {Timestamp} _.
Arguments cf_tail {Timestamp} _.

(** A capture file that is nothing but its records. *)
Definition whole {Timestamp : Type} (pcaps : list (Timestamp * bytes))
    : capture_file Timestamp :=
  mk_capture None pcaps None.

(** The object returned by [open(file, 'rb')]: the file behind it, of which
    [f_unread] are the records not yet read, and whether it has been
    closed. *)
Record file_obj (Timestamp : Type) : Type := mk_file_obj {
  f_header : option exn;
  f_unread : list (Timestamp * bytes);
  f_tail : option exn;
  f_closed : bool
}.
Arguments mk_file_obj {Timestamp} _ _ _ _.
Arguments f_header {Timestamp} _.
Arguments f_unread {Timestamp} _.
Arguments f_tail {Timestamp} _.
Arguments f_closed {Timestamp} _.

(** A file object over a capture that is nothing but its records. *)
Definition mk_file {Timestamp : Type} (unread : list (Timestamp * bytes))
    (closed : bool) : file_obj Timestamp :=
  mk_file_obj None unread None closed.

Definition f_open {Timestamp : Type} (content : capture_file Timestamp)
    : file_obj Timestamp :=
  mk_file_obj (cf_header content) (cf_records content) (cf_tail content) false.

(** [f.close()] *)
Definition close {Timestamp : Type} (f : file_obj Timestamp) : file_obj Timestamp :=
  mk_file_obj (f_header f) (f_unread f) (f_tail f) true.

(** The file object once the reader has moved on to [rest]. *)
Definition set_unread {Timestamp : Type} (f : file_obj Timestamp)
    (rest : list (Timestamp * bytes)) : file_obj Timestamp :=
  mk_file_obj (f_header f) rest (f_tail f) (f_closed f).

(** The first thing any read through [f] does: on a closed file it raises
    [ValueError].  This is only that check; what the bytes read make the
    reader raise is [f_header] (in [Reader]) and [f_tail] (in
    [reader_next]). *)
Definition closed_check {Timestamp : Type} (f : file_obj Timestamp) : result unit :=
  if f_closed f then Raise (ValueError "read of closed file") else Ok tt.

(** [dpkt.pcap.Reader(f)] reads the file header through [f] and parses it:
    it raises on a closed file and on a header it does not accept. *)
Definition Reader {Timestamp : Type} (f : file_obj Timestamp) : result unit :=
  match closed_check f with
  | Raise e => Raise e
  | Ok _ =>
      match f_header f with
      | Some e => Raise e
      | None => Ok tt
      end
  end.

(** What one step of the reader's iteration gives. *)
Inductive reader_step (Timestamp : Type) : Type :=
| NextRecord (r : Timestamp * bytes) (f' : file_obj Timestamp)
| NextStop
| NextRaise (e : exn).
Arguments NextRecord {Timestamp} r f'.
Arguments NextStop {Timestamp}.
Arguments NextRaise {Timestamp} e.

(** [next(pcaps)], the step the [for] statement of [read_itr] takes at
    each turn (and that of [read_packets], over a file no one else can
    close meanwhile): it reads through [f], so it raises [ValueError] on a
    closed file; it gives the next whole record; behind the last one it
    stops, or raises what the end of the file makes the reader raise. *)
Definition reader_next {Timestamp : Type} (f : file_obj Timestamp)
    : reader_step Timestamp :=
  match closed_check f with
  | Raise e => NextRaise e
  | Ok _ =>
      match f_unread f with
      | r :: rest => NextRecord r (set_unread f rest)
      | [] =>
          match f_tail f with
          | Some e => NextRaise e
          | None => NextStop
          end
      end
  end.

(** ** Generators *)

(** Where a generator made by [read_itr] stands: not started, suspended at
    its [yield], or finished. *)
Inductive gen_frame : Type := GenCreated | GenSuspended | GenFinished.

Record generator : Type := mk_gen {
  gen_state : gen_frame;
  gen_verbose : bool   (* [self.verbose] *)
}.

(** What [next(g)] gives the consumer. *)
Inductive next_result (A : Type) : Type :=
| Yielded (x : A)
| StopIteration
| Raised (e : exn).
Arguments Yielded {A} x.
Arguments StopIteration {A}.
Arguments Raised {A} e.

(** How a run of the [for] loop of [read_itr] ends: at its [yield], at the
    last whole record, or by an exception that leaves the inner [try]. *)
Inductive loop_exit (A : Type) : Type :=
| LoopYield (x : A)
| LoopEnd
| LoopRaise (e : exn).
Arguments LoopYield {A} x.
Arguments LoopEnd {A}.
Arguments LoopRaise {A} e.

(** Value of the attribute [packets_itr] when it exists. *)
Inductive attr_value : Type :=
| AttrGenerator (g : generator)
| AttrOther.

Section Model.

Variable Timestamp : Type.
Variable ts_leb : Timestamp -> Timestamp -> bool.
Variable IP : Type.
Variable Ethernet : bytes -> decoded IP.
Variable FlowTable : Type.
Variable FlowTable_new : FlowTable.
Variable push : FlowTable -> IP -> FlowTable.

Definition record : Type := (Timestamp * bytes)%type.
Definition pair_t : Type := (IP * Timestamp)%type.

(** ** [read_packets] *)

(** The [for] loop of [read_packets] over the records still to come, with
    its three locals.  [except dpkt.dpkt.UnpackError: continue] is the only
    handler: any other exception of the decoder leaves the loop. *)
Fixpoint read_packets_loop (pcaps : list record) (packets : list pair_t)
    (total skipped : nat) : result (list pair_t * nat * nat) :=
  match pcaps with
  | [] => Ok (packets, total, skipped)
  | (timestamp, packet) :: pcaps' =>
      match Ethernet packet with
      | EthOther => read_packets_loop pcaps' packets (total + 1) (skipped + 1)
      | EthIP ip => read_packets_loop pcaps' (packets ++ [(ip, timestamp)]) (total + 1) skipped
      | UnpackError => read_packets_loop pcaps' packets total skipped
      | EthRaises e =>
          if is_UnpackError e then read_packets_loop pcaps' packets total skipped
          else Raise e
      end
  end.

(** The records behind the one on which the decoder raised out of the loop:
    where the reader stands when the loop is left that way. *)
Fixpoint after_escape (pcaps : list record) : list record :=
  match pcaps with
  | [] => []
  | (timestamp, packet) :: pcaps' =>
      match Ethernet packet with
      | EthRaises e => if is_UnpackError e then after_escape pcaps' else pcaps'
      | _ => after_escape pcaps'
      end
  end.

Definition totals_message (total skipped : nat) : string :=
  ("Total " ++ str_of_nat total ++ " packets found. Using "
     ++ str_of_nat (total - skipped) ++ ".")%string.

(** [read_packets(self, f)]: the result, the file object afterwards and the
    text printed.  The reader is made and iterated outside every [try]:
    what it raises, at the header or behind the last whole record, leaves
    the method. *)
Definition read_packets (verbose : bool) (f : file_obj Timestamp) (out : list string)
    : result (list pair_t) * file_obj Timestamp * list string :=
  match Reader f with
  | Raise e => (Raise e, f, out)
  | Ok _ =>
      match read_packets_loop (f_unread f) [] 0 0 with
      | Raise e => (Raise e, set_unread f (after_escape (f_unread f)), out)
      | Ok (packets, total, skipped) =>
          match f_tail f with
          | Some e => (Raise e, set_unread f [], out)
          | None =>
              (Ok packets,
               set_unread f [],
               if verbose then out ++ [totals_message total skipped] else out)
          end
      end
  end.

(** ** [read_itr] *)

Definition unpack_message : string :=
  "Failed to Unpack the packet. Sending next packet.".

(** The [for] loop of [read_itr] from one resumption on, over the records
    still to come: to the next [yield], to the last whole record, or to an
    exception of the decoder that [except dpkt.dpkt.UnpackError] does not
    catch. *)
Fixpoint read_itr_loop (verbose : bool) (pcaps : list record) (out : list string)
    : loop_exit pair_t * list record * list string :=
  match pcaps with
  | [] => (LoopEnd, [], out)
  | (timestamp, packet) :: pcaps' =>
      match Ethernet packet with
      | EthOther => read_itr_loop verbose pcaps' out
      | EthIP ip => (LoopYield (ip, timestamp), pcaps', out)
      | UnpackError =>
          read_itr_loop verbose pcaps' (if verbose then out ++ [unpack_message] else out)
      | EthRaises e =>
          if is_UnpackError e
          then read_itr_loop verbose pcaps'
                 (if verbose then out ++ [unpack_message] else out)
          else (LoopRaise e, pcaps', out)
      end
  end.

(** The outer handler of [read_itr], [except ValueError: pass]: a
    [ValueError] makes the generator return, any other exception leaves it. *)
Definition outer_except (g : generator) (f : file_obj Timestamp) (out : list string)
    (e : exn) : next_result pair_t * generator * file_obj Timestamp * list string :=
  if is_ValueError e
  then (StopIteration, mk_gen GenFinished (gen_verbose g), f, out)
  else (Raised e, mk_gen GenFinished (gen_verbose g), f, out).

(** The body of [read_itr] inside its outer [try]: the reader is asked for
    the next record, which reads through [f], and the loop runs.  Three
    things can raise there: the read on a closed file, the decoder on a
    frame, the reader behind the last whole record; each goes through the
    outer handler.  Nothing else runs between two reads of one resumption,
    so the file is looked at once; [read_itr_resume_step] shows that this is
    the loop taking [reader_next] step by step. *)
Definition read_itr_resume (g : generator) (f : file_obj Timestamp) (out : list string)
    : next_result pair_t * generator * file_obj Timestamp * list string :=
  match closed_check f with
  | Raise e => outer_except g f out e
  | Ok _ =>
      match read_itr_loop (gen_verbose g) (f_unread f) out with
      | (LoopYield x, rest, out') =>
          (Yielded x, mk_gen GenSuspended (gen_verbose g), set_unread f rest, out')
      | (LoopRaise e, rest, out') =>
          outer_except g (set_unread f rest) out' e
      | (LoopEnd, rest, out') =>
          match f_tail f with
          | Some e => outer_except g (set_unread f rest) out' e
          | None =>
              (StopIteration, mk_gen GenFinished (gen_verbose g), set_unread f rest, out')
          end
      end
  end.

(** [read_itr(self, f)]: calling a generator function runs none of its body. *)
Definition read_itr (verbose : bool) : generator := mk_gen GenCreated verbose.

(** [next(g)] on the generator of [read_itr], [f] being the file object it
    holds.  The first call runs [pcaps = dpkt.pcap.Reader(f)], which stands
    before the [try]: what it raises leaves the generator, a [ValueError]
    too. *)
Definition gen_next (g : generator) (f : file_obj Timestamp) (out : list string)
    : next_result pair_t * generator * file_obj Timestamp * list string :=
  match gen_state g with
  | GenFinished => (StopIteration, g, f, out)
  | GenSuspended => read_itr_resume g f out
  | GenCreated =>
      match Reader f with
      | Raise e => (Raised e, mk_gen GenFinished (gen_verbose g), f, out)
      | Ok _ => read_itr_resume g f out
      end
  end.

(** [g.close()], and what dropping the last reference does: the frame is
    unwound; [read_itr] has no [finally] and no [with]. *)
Definition gen_close (g : generator) : generator :=
  mk_gen GenFinished (gen_verbose g).

(** A consumer that pulls until the generator stops, as [list(g)] does;
    [fuel] bounds the number of pulls. *)
Fixpoint list_of_gen (fuel : nat) (g : generator) (f : file_obj Timestamp)
    (out : list string) (acc : list pair_t)
    : option (result (list pair_t) * generator * file_obj Timestamp * list string) :=
  match fuel with
  | 0 => None
  | S fuel' =>
      match gen_next g f out with
      | (Yielded x, g', f', out') => list_of_gen fuel' g' f' out' (acc ++ [x])
      | (StopIteration, g', f', out') => Some (Ok acc, g', f', out')
      | (Raised e, g', f', out') => Some (Raise e, g', f', out')
      end
  end.

(** ** [list.sort(key=lambda x: x[1])] *)

(** Python's [list.sort] is a stable ascending sort on the keys; here as a
    stable insertion sort on the timestamp. *)
Fixpoint insert_by_timestamp (x : pair_t) (l : list pair_t) : list pair_t :=
  match l with
  | [] => [x]
  | y :: l' =>
      if ts_leb (snd x) (snd y) then x :: y :: l'
      else y :: insert_by_timestamp x l'
  end.

Definition sort_by_timestamp (l : list pair_t) : list pair_t :=
  fold_right insert_by_timestamp [] l.

(** ** The class *)

(** An instance: the attributes [__init__] always sets, and the two it sets
    on some paths only ([None]: the attribute does not exist). *)
Record PacketReader : Type := mk_self {
  self_file : option string;
  self_interface : option string;
  self_to_itr : bool;
  self_to_list : bool;
  self_to_ft : bool;
  self_ft : option FlowTable;
  self_sort : bool;
  self_verbose : bool;
  self_packets_itr : option attr_value;
  self_packets : option (list pair_t)
}.

Definition set_packets_itr (self : PacketReader) (v : attr_value) : PacketReader :=
  mk_self (self_file self) (self_interface self) (self_to_itr self) (self_to_list self)
    (self_to_ft self) (self_ft self) (self_sort self) (self_verbose self)
    (Some v) (self_packets self).

Definition set_packets (self : PacketReader) (v : list pair_t) : PacketReader :=
  mk_self (self_file self) (self_interface self) (self_to_itr self) (self_to_list self)
    (self_to_ft self) (self_ft self) (self_sort self) (self_verbose self)
    (self_packets_itr self) (Some v).

Definition set_ft (self : PacketReader) (v : FlowTable) : PacketReader :=
  mk_self (self_file self) (self_interface self) (self_to_itr self) (self_to_list self)
    (self_to_ft self) (Some v) (self_sort self) (self_verbose self)
    (self_packets_itr self) (self_packets self).

(** [for packet in self.packets: self.ft.push(packet[0])] *)
Definition push_all (ft : FlowTable) (packets : list pair_t) : FlowTable :=
  fold_left (fun ft packet => push ft (fst packet)) packets ft.

(** What a call of the constructor leaves behind: the instance or the
    exception, the file object if [open] returned one, and the text printed. *)
Record constructed : Type := mk_constructed {
  c_result : result PacketReader;
  c_file : option (file_obj Timestamp);
  c_stdout : list string
}.

Definition __init__ (fs : string -> option (capture_file Timestamp))
    (file interface : option string)
    (to_itr to_list to_ft sort verbose : bool) : constructed :=
  let self :=
    mk_self file interface to_itr to_list to_ft None sort verbose None None in
  if negb (truthy file) && negb (truthy interface) then
    mk_constructed (Raise (ValueError "File or Network interface is required")) None []
  else if truthy file && truthy interface then
    mk_constructed
      (Raise (ValueError ("Both file " ++ py_str file ++ " and Network Interface "
                            ++ py_str interface ++ " specified.")%string))
      None []
  else if truthy file then
    match fs (py_str file) with
    | None =>
        mk_constructed
          (Raise (FileNotFoundError ("File " ++ py_str file ++ " not found!")%string)) None []
    | Some content =>
        let f := f_open content in
        if to_itr then
          mk_constructed (Ok (set_packets_itr self (AttrGenerator (read_itr verbose))))
            (Some f) []
        else if to_list then
          match read_packets verbose f [] with
          | (Raise e, f', out) => mk_constructed (Raise e) (Some f') out
          | (Ok packets, f', out) =>
              let f'' := close f' in
              let packets :=
                if sort || to_ft then sort_by_timestamp packets else packets in
              let self := set_packets self packets in
              let self :=
                if to_ft then set_ft self (push_all FlowTable_new packets) else self in
              mk_constructed (Ok self) (Some f'') out
          end
        else
          mk_constructed (Ok self) (Some f) []
    end
  else if truthy interface then
    mk_constructed (Raise (NotImplementedError "Live packet capture not implemented")) None []
  else
    (* no branch of the chain taken; the first test excludes it *)
    mk_constructed (Ok self) None [].

(** [get_itr(self)]: reading a missing attribute raises [AttributeError],
    which the method turns into [ValueError]. *)
Definition get_itr (self : PacketReader) : result (option generator) :=
  match self_packets_itr self with
  | Some (AttrGenerator g) => Ok (Some g)
  | Some AttrOther => Ok None
  | None => Raise (ValueError "PacketReader was not initialised using to_itr")
  end.

Definition get_flow_table (self : PacketReader) : option FlowTable :=
  self_ft self.

(** ** Views of a capture, to state properties *)

Definition is_ip (r : record) : bool :=
  match Ethernet (snd r) with EthIP _ => true | _ => false end.

Definition is_other (r : record) : bool :=
  match Ethernet (snd r) with EthOther => true | _ => false end.

(** A record whose frame raises what [except dpkt.dpkt.UnpackError] catches. *)
Definition is_malformed (r : record) : bool :=
  match Ethernet (snd r) with
  | UnpackError => true
  | EthRaises e => is_UnpackError e
  | _ => false
  end.

(** The exception the decoder raises on a record past that handler. *)
Definition escaping (r : record) : option exn :=
  match Ethernet (snd r) with
  | EthRaises e => if is_UnpackError e then None else Some e
  | _ => None
  end.

Definition count (p : record -> bool) (pcaps : list record) : nat :=
  List.length (filter p pcaps).

(** The decoded IP packets of a capture with their timestamps, in capture
    order. *)
Fixpoint ip_packets (pcaps : list record) : list pair_t :=
  match pcaps with
  | [] => []
  | (timestamp, packet) :: pcaps' =>
      match Ethernet packet with
      | EthIP ip => (ip, timestamp) :: ip_packets pcaps'
      | _ => ip_packets pcaps'
      end
  end.

(** The first exception, in capture order, that the decoder raises past the
    handler; [None] when every record decodes or is caught. *)
Fixpoint first_escape (pcaps : list record) : option exn :=
  match pcaps with
  | [] => None
  | r :: pcaps' =>
      match escaping r with
      | Some e => Some e
      | None => first_escape pcaps'
      end
  end.

(** The decoded IP packets in front of that exception; all of them when
    there is none. *)
Fixpoint ip_before_escape (pcaps : list record) : list pair_t :=
  match pcaps with
  | [] => []
  | (timestamp, packet) :: pcaps' =>
      match Ethernet packet with
      | EthIP ip => (ip, timestamp) :: ip_before_escape pcaps'
      | EthRaises e => if is_UnpackError e then ip_before_escape pcaps' else []
      | _ => ip_before_escape pcaps'
      end
  end.

(** The lines a verbose generator prints while it runs over a capture. *)
Fixpoint unpack_log (verbose : bool) (pcaps : list record) : list string :=
  match pcaps with
  | [] => []
  | r :: pcaps' =>
      (if verbose && is_malformed r then [unpack_message] else [])
        ++ unpack_log verbose pcaps'
  end.

(** What ends the eager read of a file early, if anything: the header, a
    frame, or the end of the records. *)
Definition eager_failure (content : capture_file Timestamp) : option exn :=
  match cf_header content with
  | Some e => Some e
  | None =>
      match first_escape (cf_records content) with
      | Some e => Some e
      | None => cf_tail content
      end
  end.

(** What ends the stream of the generator early, if anything: a frame or
    the end of the records. *)
Definition stream_failure (pcaps : list record) (tail : option exn) : option exn :=
  match first_escape pcaps with
  | Some e => Some e
  | None => tail
  end.

(** What a consumer that drains the generator over these records ends
    with, having collected [acc] so far: the outer handler turns a
    [ValueError] into the end of the sequence. *)
Definition drained (pcaps : list record) (tail : option exn) (acc : list pair_t)
    : result (list pair_t) :=
  match stream_failure pcaps tail with
  | None => Ok (acc ++ ip_before_escape pcaps)
  | Some e =>
      if is_ValueError e then Ok (acc ++ ip_before_escape pcaps) else Raise e
  end.

(** Two timestamps tie when neither sorts strictly before the other. *)
Definition ts_tie (a b : Timestamp) : bool := ts_leb a b && ts_leb b a.

Definition tied_with (t : Timestamp) (l : list pair_t) : list pair_t :=
  filter (fun p => ts_tie (snd p) t) l.

Definition ascending (l : list pair_t) : Prop :=
  StronglySorted (fun p q => ts_leb (snd p) (snd q) = true) l.

(** [PacketReader(file=path)]: every other argument at its default. *)
Definition with_defaults (fs : string -> option (capture_file Timestamp)) (path : string)
    : constructed :=
  __init__ fs (Some path) None true false false false false.

End Model.

Arguments read_packets_loop {Timestamp IP} Ethernet pcaps packets total skipped.
Arguments after_escape {Timestamp IP} Ethernet pcaps.
Arguments read_packets {Timestamp IP} Ethernet verbose f out.
Arguments read_itr_loop {Timestamp IP} Ethernet verbose pcaps out.
Arguments outer_except {Timestamp IP} g f out e.
Arguments read_itr_resume {Timestamp IP} Ethernet g f out.
Arguments gen_next {Timestamp IP} Ethernet g f out.
Arguments list_of_gen {Timestamp IP} Ethernet fuel g f out acc.
Arguments insert_by_timestamp {Timestamp} ts_leb {IP} x l.
Arguments sort_by_timestamp {Timestamp} ts_leb {IP} l.
Arguments mk_self {Timestamp IP FlowTable}.
Arguments self_file {Timestamp IP FlowTable} _.
Arguments self_interface {Timestamp IP FlowTable} _.
Arguments self_to_itr {Timestamp IP FlowTable} _.
Arguments self_to_list {Timestamp IP FlowTable} _.
Arguments self_to_ft {Timestamp IP FlowTable} _.
Arguments self_ft {Timestamp IP FlowTable} _.
Arguments self_sort {Timestamp IP FlowTable} _.
Arguments self_verbose {Timestamp IP FlowTable} _.
Arguments self_packets_itr {Timestamp IP FlowTable} _.
Arguments self_packets {Timestamp IP FlowTable} _.
Arguments push_all {Timestamp IP FlowTable} push ft packets.
Arguments mk_constructed {Timestamp IP FlowTable}.
Arguments c_result {Timestamp IP FlowTable} _.
Arguments c_file {Timestamp IP FlowTable} _.
Arguments c_stdout {Timestamp IP FlowTable} _.
Arguments __init__ {Timestamp} ts_leb {IP} Ethernet {FlowTable} FlowTable_new push
  fs file interface to_itr to_list to_ft sort verbose.
Arguments get_itr {Timestamp IP FlowTable} self.
Arguments get_flow_table {Timestamp IP FlowTable} self.
Arguments is_ip {Timestamp IP} Ethernet r.
Arguments is_other {Timestamp IP} Ethernet r.
Arguments is_malformed {Timestamp IP} Ethernet r.
Arguments escaping {Timestamp IP} Ethernet r.
Arguments count {Timestamp} p pcaps.
Arguments ip_packets {Timestamp IP} Ethernet pcaps.
Arguments first_escape {Timestamp IP} Ethernet pcaps.
Arguments ip_before_escape {Timestamp IP} Ethernet pcaps.
Arguments unpack_log {Timestamp IP} Ethernet verbose pcaps.
Arguments eager_failure {Timestamp IP} Ethernet content.
Arguments stream_failure {Timestamp IP} Ethernet pcaps tail.
Arguments drained {Timestamp IP} Ethernet pcaps tail acc.
Arguments ts_tie {Timestamp} ts_leb a b.
Arguments tied_with {Timestamp} ts_leb {IP} t l.
Arguments ascending {Timestamp} ts_leb {IP} l.
Arguments with_defaults {Timestamp} ts_leb {IP} Ethernet {FlowTable} FlowTable_new push
  fs path.

(** ** A small instance, for examples

    Timestamps are integers (ticks), a decoded packet is its payload bytes,
    a flow table is the list of the packets pushed, first push first.  The
    decoder wants the 14 bytes of an Ethernet header and takes EtherType
    [0x0800] for IP. *)
Module Demo.

Definition Ethernet (packet : bytes) : decoded bytes :=
  if Nat.ltb (List.length packet) 14 then UnpackError
  else
    match skipn 12 packet with
    | x08 :: x00 :: data => EthIP data
    | _ => EthOther
    end.

Definition FlowTable : Type := list bytes.
Definition FlowTable_new : FlowTable := [].
Definition push (ft : FlowTable) (ip : bytes) : FlowTable := ft ++ [ip].

Definition macs : bytes := repeat x00 12.
Definition ip_frame (tag : byte) : bytes := macs ++ [x08; x00; x45; tag].
Definition arp_frame : bytes := macs ++ [x08; x06; x00; x01].
Definition short_frame : bytes := [xff; xff; xff].

(** Ten records: two are not IP, one is truncated; timestamps are out of
    order and two pairs of them tie. *)
Definition capture : list (Z * bytes) :=
  [ (50, ip_frame x01); (20, arp_frame); (30, ip_frame x02); (30, ip_frame x03);
    (10, short_frame); (40, ip_frame x04); (20, ip_frame x05); (60, arp_frame);
    (20, ip_frame x06); (10, ip_frame x07) ]%Z.

Definition fs (path : string) : option (capture_file Z) :=
  if String.eqb path "./data/dns.cap" then Some (whole capture) else None.

Definition init := __init__ Z.leb Ethernet FlowTable_new push fs.

End Demo.

(** ** A consumer that gives up early *)

Section Consumers.

Context {Timestamp IP : Type}.
Variable Ethernet : bytes -> decoded IP.

(** Pull at most [n] times, then leave the generator where it stands, as
    [itertools.islice(g, n)] does. *)
Fixpoint take_from_gen (n : nat) (g : generator) (f : file_obj Timestamp)
    (out : list string) (acc : list (pair_t Timestamp IP))
    : result (list (pair_t Timestamp IP)) * generator * file_obj Timestamp * list string :=
  match n with
  | 0 => (Ok acc, g, f, out)
  | S n' =>
      match gen_next Ethernet g f out with
      | (Yielded x, g', f', out') => take_from_gen n' g' f' out' (acc ++ [x])
      | (StopIteration, g', f', out') => (Ok acc, g', f', out')
      | (Raised e, g', f', out') => (Raise e, g', f', out')
      end
  end.

End Consumers.

(** A capture whose IP packets are already in time order, for examples. *)
Module DemoSorted.

Definition capture : list (Z * bytes) :=
  [ (10, Demo.ip_frame x01); (20, Demo.arp_frame); (20, Demo.ip_frame x02);
    (20, Demo.ip_frame x03); (30, Demo.short_frame); (40, Demo.ip_frame x04) ]%Z.

Definition fs (path : string) : option (capture_file Z) :=
  if String.eqb path "sorted.pcap" then Some (whole capture) else None.

Definition init := __init__ Z.leb Demo.Ethernet Demo.FlowTable_new Demo.push fs.

End DemoSorted.

(** ** Files and frames that make dpkt raise, for examples

    The decoder is [Demo.Ethernet] but for one frame: on an MPLS frame
    (EtherType [0x8847]) cut right behind its Ethernet header it raises
    [IndexError], an exception that is not an [UnpackError], as dpkt does
    on such a frame.  The files: a capture with such a frame between two
    IP frames; a capture cut in the middle of its second record header; a
    file that opens but is no capture. *)
Module DemoFaulty.

Definition cut_mpls_frame : bytes := Demo.macs ++ [x88; x47].

Definition Ethernet (packet : bytes) : decoded bytes :=
  match skipn 12 packet with
  | [x88; x47] => EthRaises (IndexError "index out of range")
  | _ => Demo.Ethernet packet
  end.

Definition mpls_capture : capture_file Z :=
  whole [ (10, Demo.ip_frame x01); (20, cut_mpls_frame); (30, Demo.ip_frame x02) ]%Z.

Definition cut_capture : capture_file Z :=
  mk_capture None [ (10, Demo.ip_frame x01) ]%Z
    (Some (NeedData "got 7, 16 needed at least")).

Definition no_capture : capture_file Z :=
  mk_capture (Some (ValueError "invalid tcpdump header")) [] None.

Definition fs (path : string) : option (capture_file Z) :=
  if String.eqb path "mpls.pcap" then Some mpls_capture
  else if String.eqb path "cut.pcap" then Some cut_capture
  else if String.eqb path "notes.txt" then Some no_capture
  else None.

Definition init := __init__ Z.leb Ethernet Demo.FlowTable_new Demo.push fs.

End DemoFaulty.

(** * Properties *)

Section Properties.

Context {Timestamp IP FlowTable : Type}.
Variable ts_leb : Timestamp -> Timestamp -> bool.
Variable Ethernet : bytes -> decoded IP.
Variable FlowTable_new : FlowTable.
Variable push : FlowTable -> IP -> FlowTable.

Implicit Types (pcaps : list (record Timestamp)) (r : record Timestamp).
Implicit Types (packets l : list (pair_t Timestamp IP)).
Implicit Types (f : file_obj Timestamp) (g : generator) (out : list string).

(** Equal tuples, component by component, up to arithmetic. *)
Ltac tuple_eq :=
  repeat match goal with |- (_, _) = (_, _) => apply f_equal2 end;
  try reflexivity; try lia.

(** ** Counting the records of a capture *)

Lemma count_cons (p : record Timestamp -> bool) r pcaps :
  count p (r :: pcaps) = (if p r then 1 else 0) + count p pcaps.
Proof.
  unfold count; simpl. now destruct (p r).
Qed.

Lemma count_nil (p : record Timestamp -> bool) : count p [] = 0.
Proof. reflexivity. Qed.

Lemma first_escape_cons r pcaps :
  first_escape Ethernet (r :: pcaps)
  = match escaping Ethernet r with
    | Some e => Some e
    | None => first_escape Ethernet pcaps
    end.
Proof. reflexivity. Qed.

(** A record on which nothing escapes is an IP record, another record or a
    malformed one. *)
Lemma record_kinds r :
  escaping Ethernet r = None ->
  (if is_ip Ethernet r then 1 else 0) + (if is_other Ethernet r then 1 else 0)
    + (if is_malformed Ethernet r then 1 else 0) = 1.
Proof.
  unfold escaping, is_ip, is_other, is_malformed.
  destruct (Ethernet (snd r)) as [ip| | |e]; try reflexivity.
  destruct (is_UnpackError e); [reflexivity|discriminate].
Qed.

Lemma count_partition pcaps :
  first_escape Ethernet pcaps = None ->
  count (is_ip Ethernet) pcaps + count (is_other Ethernet) pcaps
    + count (is_malformed Ethernet) pcaps = List.length pcaps.
Proof.
  induction pcaps as [|r pcaps IH]; [reflexivity|].
  rewrite first_escape_cons, !count_cons.
  destruct (escaping Ethernet r) eqn:E; [discriminate|]. intros H.
  pose proof (record_kinds r E). specialize (IH H). simpl. lia.
Qed.

Lemma length_ip_packets pcaps :
  List.length (ip_packets Ethernet pcaps) = count (is_ip Ethernet) pcaps.
Proof.
  induction pcaps as [|[timestamp packet] pcaps IH]; [reflexivity|].
  rewrite count_cons; unfold is_ip in *; simpl.
  destruct (Ethernet packet); simpl; lia.
Qed.

Lemma ip_packets_app pcaps1 pcaps2 :
  ip_packets Ethernet (pcaps1 ++ pcaps2)
  = ip_packets Ethernet pcaps1 ++ ip_packets Ethernet pcaps2.
Proof.
  induction pcaps1 as [|[timestamp packet] pcaps1 IH]; [reflexivity|].
  simpl. destruct (Ethernet packet); simpl; now rewrite IH.
Qed.



Lemma ip_before_escape_clean pcaps :
  first_escape Ethernet pcaps = None ->
  ip_before_escape Ethernet pcaps = ip_packets Ethernet pcaps.
Proof.
  induction pcaps as [|[timestamp packet] pcaps IH]; [reflexivity|].
  simpl. unfold escaping. simpl.
  destruct (Ethernet packet) as [ip| | |e]; intros H; try (now rewrite IH).
  destruct (is_UnpackError e); [now apply IH|discriminate].
Qed.





(** ** The eager loop *)

(** The loop invariant of [read_packets], solved: the loop is left by the
    first exception that escapes the handler, and otherwise ends with these
    three locals. *)
Lemma read_packets_loop_spec pcaps : forall packets total skipped,
  read_packets_loop Ethernet pcaps packets total skipped
  = match first_escape Ethernet pcaps with
    | Some e => Raise e
    | None =>
        Ok (packets ++ ip_packets Ethernet pcaps,
            total + count (is_ip Ethernet) pcaps + count (is_other Ethernet) pcaps,
            skipped + count (is_other Ethernet) pcaps)
    end.
Proof.
  induction pcaps as [|[timestamp packet] pcaps IH]; intros packets total skipped.
  - simpl. rewrite app_nil_r, !count_nil. f_equal; tuple_eq.
  - rewrite first_escape_cons, !count_cons. simpl.
    unfold escaping, is_ip at 1, is_other at 1 3. simpl.
    destruct (Ethernet packet) as [ip| | |e]; try rewrite IH.
    + destruct (first_escape Ethernet pcaps); [reflexivity|].
      rewrite <- app_assoc. simpl. f_equal; tuple_eq.
    + destruct (first_escape Ethernet pcaps); [reflexivity|]. f_equal; tuple_eq.
    + destruct (first_escape Ethernet pcaps); [reflexivity|]. f_equal; tuple_eq.
    + destruct (is_UnpackError e); [|reflexivity].
      destruct (first_escape Ethernet pcaps); [reflexivity|]. f_equal; tuple_eq.
Qed.

(** The eager read of a freshly opened file that nothing ends early. *)
Lemma read_packets_ok verbose (content : capture_file Timestamp) out :
  eager_failure Ethernet content = None ->
  read_packets Ethernet verbose (f_open content) out
  = (Ok (ip_packets Ethernet (cf_records content)),
     mk_file [] false,
     if verbose
     then out ++ [totals_message
                    (count (is_ip Ethernet) (cf_records content)
                     + count (is_other Ethernet) (cf_records content))
                    (count (is_other Ethernet) (cf_records content))]
     else out).
Proof.
  destruct content as [header pcaps tail]. unfold eager_failure. simpl.
  destruct header; [discriminate|].
  destruct (first_escape Ethernet pcaps) eqn:E; [discriminate|]. intros ->.
  unfold read_packets, f_open, Reader, closed_check. simpl.
  rewrite read_packets_loop_spec, E. reflexivity.
Qed.

(** The eager read of a freshly opened file that something ends early:
    the exception leaves the method, nothing is printed, and the file is
    as open as it was. *)
Lemma read_packets_fails verbose (content : capture_file Timestamp) out e :
  eager_failure Ethernet content = Some e ->
  exists f',
    read_packets Ethernet verbose (f_open content) out = (Raise e, f', out)
    /\ f_closed f' = false.
Proof.
  destruct content as [header pcaps tail]. unfold eager_failure. simpl. intros H.
  unfold read_packets, f_open, Reader, closed_check. simpl.
  destruct header as [e'|].
  - injection H as ->. eexists. split; reflexivity.
  - rewrite read_packets_loop_spec.
    destruct (first_escape Ethernet pcaps) as [e'|].
    + injection H as ->. eexists. split; reflexivity.
    + subst tail. eexists. split; reflexivity.
Qed.

Lemma eager_failure_whole pcaps :
  eager_failure Ethernet (whole pcaps) = first_escape Ethernet pcaps.
Proof.
  unfold eager_failure. simpl. now destruct (first_escape Ethernet pcaps).
Qed.

Lemma read_packets_open verbose pcaps out :
  first_escape Ethernet pcaps = None ->
  read_packets Ethernet verbose (f_open (whole pcaps)) out
  = (Ok (ip_packets Ethernet pcaps),
     mk_file [] false,
     if verbose
     then out ++ [totals_message
                    (count (is_ip Ethernet) pcaps + count (is_other Ethernet) pcaps)
                    (count (is_other Ethernet) pcaps)]
     else out).
Proof.
  intros H. apply (read_packets_ok verbose (whole pcaps)).
  now rewrite eager_failure_whole.
Qed.

(** ** The generator *)

Lemma unpack_log_cons verbose r pcaps :
  unpack_log Ethernet verbose (r :: pcaps)
  = (if verbose && is_malformed Ethernet r then [unpack_message] else [])
    ++ unpack_log Ethernet verbose pcaps.
Proof. reflexivity. Qed.

Lemma read_itr_loop_yield verbose pcaps : forall out x rest out',
  read_itr_loop Ethernet verbose pcaps out = (LoopYield x, rest, out') ->
  ip_packets Ethernet pcaps = x :: ip_packets Ethernet rest
  /\ ip_before_escape Ethernet pcaps = x :: ip_before_escape Ethernet rest
  /\ first_escape Ethernet pcaps = first_escape Ethernet rest
  /\ List.length rest < List.length pcaps
  /\ out' ++ unpack_log Ethernet verbose rest = out ++ unpack_log Ethernet verbose pcaps.
Proof.
  induction pcaps as [|[timestamp packet] pcaps IH]; intros out x rest out' H; simpl in H.
  - discriminate.
  - rewrite first_escape_cons, unpack_log_cons. simpl.
    unfold escaping, is_malformed. simpl.
    destruct (Ethernet packet) as [ip| | |e].
    + injection H as <- <- <-. rewrite andb_false_r. repeat split; auto.
    + destruct (IH _ _ _ _ H) as (Hip & Hbefore & Hesc & Hlen & Hout).
      rewrite andb_false_r. repeat split; auto.
    + destruct (IH _ _ _ _ H) as (Hip & Hbefore & Hesc & Hlen & Hout).
      repeat split; auto.
      rewrite Hout. destruct verbose; simpl; [|reflexivity].
      now rewrite <- app_assoc.
    + destruct (is_UnpackError e); [|discriminate].
      destruct (IH _ _ _ _ H) as (Hip & Hbefore & Hesc & Hlen & Hout).
      repeat split; auto.
      rewrite Hout. destruct verbose; simpl; [|reflexivity].
      now rewrite <- app_assoc.
Qed.

Lemma read_itr_loop_end verbose pcaps : forall out rest out',
  read_itr_loop Ethernet verbose pcaps out = (LoopEnd, rest, out') ->
  ip_packets Ethernet pcaps = []
  /\ ip_before_escape Ethernet pcaps = []
  /\ first_escape Ethernet pcaps = None
  /\ rest = []
  /\ out' = out ++ unpack_log Ethernet verbose pcaps.
Proof.
  induction pcaps as [|[timestamp packet] pcaps IH]; intros out rest out' H; simpl in H.
  - injection H as <- <-. simpl. now rewrite app_nil_r.
  - rewrite first_escape_cons, unpack_log_cons. simpl.
    unfold escaping, is_malformed. simpl.
    destruct (Ethernet packet) as [ip| | |e].
    + discriminate.
    + rewrite andb_false_r. exact (IH _ _ _ H).
    + destruct (IH _ _ _ H) as (Hip & Hbefore & Hesc & Hrest & Hout).
      repeat split; auto.
      rewrite Hout. destruct verbose; simpl; [|reflexivity].
      now rewrite <- app_assoc.
    + destruct (is_UnpackError e); [|discriminate].
      destruct (IH _ _ _ H) as (Hip & Hbefore & Hesc & Hrest & Hout).
      repeat split; auto.
      rewrite Hout. destruct verbose; simpl; [|reflexivity].
      now rewrite <- app_assoc.
Qed.

Lemma read_itr_loop_raise verbose pcaps : forall out e rest out',
  read_itr_loop Ethernet verbose pcaps out = (LoopRaise e, rest, out') ->
  first_escape Ethernet pcaps = Some e
  /\ ip_before_escape Ethernet pcaps = []
  /\ is_UnpackError e = false.
Proof.
  induction pcaps as [|[timestamp packet] pcaps IH]; intros out e rest out' H; simpl in H.
  - discriminate.
  - rewrite first_escape_cons. simpl. unfold escaping. simpl.
    destruct (Ethernet packet) as [ip| | |e'].
    + discriminate.
    + exact (IH _ _ _ _ H).
    + exact (IH _ _ _ _ H).
    + destruct (is_UnpackError e') eqn:E.
      * exact (IH _ _ _ _ H).
      * injection H as <- _ _. auto.
Qed.

(** Nothing escapes while the loop runs on records that are clean. *)
Lemma read_itr_loop_clean verbose pcaps out e rest out' :
  first_escape Ethernet pcaps = None ->
  read_itr_loop Ethernet verbose pcaps out <> (LoopRaise e, rest, out').
Proof.
  intros Hclean H. apply read_itr_loop_raise in H as (H & _). congruence.
Qed.

(** The body of [read_itr], one step of the reader at a time: the loop is
    the iteration of [reader_next], each record going through the inner
    [try] and every exception that leaves it, the reader's included,
    through the outer handler. *)
Lemma read_itr_resume_step g f out :
  read_itr_resume Ethernet g f out
  = match reader_next f with
    | NextRaise e => outer_except g f out e
    | NextStop =>
        (StopIteration, mk_gen GenFinished (gen_verbose g), f, out)
    | NextRecord (timestamp, packet) f' =>
        match Ethernet packet with
        | EthIP ip =>
            (Yielded (ip, timestamp), mk_gen GenSuspended (gen_verbose g), f', out)
        | EthOther => read_itr_resume Ethernet g f' out
        | UnpackError =>
            read_itr_resume Ethernet g f'
              (if gen_verbose g then out ++ [unpack_message] else out)
        | EthRaises e =>
            if is_UnpackError e
            then read_itr_resume Ethernet g f'
                   (if gen_verbose g then out ++ [unpack_message] else out)
            else outer_except g f' out e
        end
    end.
Proof.
  destruct f as [header unread tail closed].
  unfold read_itr_resume, reader_next, closed_check, set_unread. simpl.
  destruct closed; [reflexivity|].
  destruct unread as [|[timestamp packet] rest]; simpl.
  - destruct tail; reflexivity.
  - destruct (Ethernet packet) as [ip| | |e]; try reflexivity.
    destruct (is_UnpackError e); reflexivity.
Qed.

(** On an open file whose header the reader accepts, the first pull and
    the later ones run the same loop. *)
Lemma gen_next_open g f out :
  gen_state g <> GenFinished -> f_closed f = false ->
  (gen_state g = GenCreated -> f_header f = None) ->
  gen_next Ethernet g f out = read_itr_resume Ethernet g f out.
Proof.
  intros Hg Hf Hh. unfold gen_next, Reader, closed_check. rewrite Hf.
  destruct (gen_state g); try reflexivity; [|now elim Hg].
  now rewrite Hh.
Qed.

Lemma outer_except_keeps_closed g f out e :
  f_closed (snd (fst (@outer_except Timestamp IP g f out e))) = f_closed f.
Proof. unfold outer_except. now destruct (is_ValueError e). Qed.

(** A pull never closes, and never reopens, the file it reads through. *)
Lemma gen_next_keeps_closed g f out :
  f_closed (snd (fst (gen_next Ethernet g f out))) = f_closed f.
Proof.
  assert (R : f_closed (snd (fst (read_itr_resume Ethernet g f out))) = f_closed f).
  { unfold read_itr_resume, closed_check. destruct (f_closed f) eqn:Hf.
    - now rewrite outer_except_keeps_closed.
    - destruct (read_itr_loop _ _ _ _) as [[[x| |e] rest] out'].
      + exact Hf.
      + destruct (f_tail f); [|exact Hf]. now rewrite outer_except_keeps_closed.
      + now rewrite outer_except_keeps_closed. }
  unfold gen_next. destruct (gen_state g); auto.
  destruct (Reader f); auto.
Qed.

(** Draining a generator that is not finished, over an open file that is
    nothing but records on which nothing escapes: every IP packet still
    unread comes out, in order, and the file is read to its end. *)
Lemma list_of_gen_open fuel : forall pcaps g out acc,
  first_escape Ethernet pcaps = None ->
  gen_state g <> GenFinished ->
  List.length pcaps < fuel ->
  list_of_gen Ethernet fuel g (mk_file pcaps false) out acc
  = Some (Ok (acc ++ ip_packets Ethernet pcaps),
          mk_gen GenFinished (gen_verbose g),
          mk_file [] false,
          out ++ unpack_log Ethernet (gen_verbose g) pcaps).
Proof.
  induction fuel as [|fuel IH]; intros pcaps g out acc Hclean Hg Hlen; [lia|].
  simpl. rewrite gen_next_open by auto.
  unfold read_itr_resume, closed_check. simpl.
  destruct (read_itr_loop Ethernet (gen_verbose g) pcaps out) as [[[x| |e] rest] out'] eqn:E.
  - destruct (read_itr_loop_yield _ _ _ _ _ _ E) as (Hip & _ & Hesc & Hl & Hout).
    unfold set_unread. simpl. fold (@mk_file Timestamp rest false).
    rewrite IH; simpl; [|congruence|discriminate|lia].
    rewrite Hip, Hout, <- app_assoc. reflexivity.
  - destruct (read_itr_loop_end _ _ _ _ _ E) as (Hip & _ & _ & -> & ->).
    rewrite Hip, app_nil_r. reflexivity.
  - now elim (read_itr_loop_clean _ _ _ _ _ _ Hclean E).
Qed.

Lemma drained_cons_result pcaps tail acc x rest :
  ip_before_escape Ethernet pcaps = x :: ip_before_escape Ethernet rest ->
  first_escape Ethernet pcaps = first_escape Ethernet rest ->
  drained Ethernet pcaps tail acc = drained Ethernet rest tail (acc ++ [x]).
Proof.
  intros Hbefore Hesc. unfold drained, stream_failure.
  rewrite Hbefore, Hesc, <- app_assoc. reflexivity.
Qed.

(** Draining a generator that is not finished over any open file whose
    header the reader accepts: what the consumer ends with is [drained],
    the generator is finished and the file is still open. *)
Lemma list_of_gen_result fuel : forall pcaps header tail g out acc,
  gen_state g <> GenFinished ->
  (gen_state g = GenCreated -> header = None) ->
  List.length pcaps < fuel ->
  exists f' out',
    list_of_gen Ethernet fuel g (mk_file_obj header pcaps tail false) out acc
    = Some (drained Ethernet pcaps tail acc,
            mk_gen GenFinished (gen_verbose g), f', out')
    /\ f_closed f' = false.
Proof.
  induction fuel as [|fuel IH]; intros pcaps header tail g out acc Hg Hh Hlen; [lia|].
  simpl. rewrite gen_next_open by auto.
  unfold read_itr_resume, closed_check. simpl.
  destruct (read_itr_loop Ethernet (gen_verbose g) pcaps out) as [[[x| |e] rest] out'] eqn:E.
  - destruct (read_itr_loop_yield _ _ _ _ _ _ E) as (_ & Hbefore & Hesc & Hl & _).
    unfold set_unread. simpl.
    destruct (IH rest header tail (mk_gen GenSuspended (gen_verbose g)) out'
                (acc ++ [x])) as (f' & out'' & -> & Hf');
      [discriminate|discriminate|lia|].
    rewrite (drained_cons_result _ _ _ _ _ Hbefore Hesc).
    exists f', out''. split; [reflexivity|exact Hf'].
  - destruct (read_itr_loop_end _ _ _ _ _ E) as (_ & Hbefore & Hesc & -> & ->).
    unfold drained, stream_failure, outer_except. rewrite Hbefore, Hesc, app_nil_r.
    destruct tail as [e|]; [destruct (is_ValueError e)|];
      (eexists _, _; split; reflexivity).
  - destruct (read_itr_loop_raise _ _ _ _ _ _ E) as (Hesc & Hbefore & _).
    unfold drained, stream_failure, outer_except. rewrite Hbefore, Hesc, app_nil_r.
    destruct (is_ValueError e); (eexists _, _; split; reflexivity).
Qed.

(** The loop over records with no IP packet and nothing escaping runs to
    the last whole record. *)
Lemma read_itr_loop_no_ip verbose pcaps out :
  ip_packets Ethernet pcaps = [] ->
  first_escape Ethernet pcaps = None ->
  read_itr_loop Ethernet verbose pcaps out
  = (LoopEnd, [], out ++ unpack_log Ethernet verbose pcaps).
Proof.
  intros Hip Hclean.
  destruct (read_itr_loop Ethernet verbose pcaps out) as [[[x| |e] rest] out'] eqn:E.
  - apply read_itr_loop_yield in E as (H & _). congruence.
  - apply read_itr_loop_end in E as (_ & _ & _ & -> & ->). reflexivity.
  - now elim (read_itr_loop_clean _ _ _ _ _ _ Hclean E).
Qed.


(** ** Construction *)

(** The outcomes of the constructor on a file that opens. *)
Lemma init_streaming fs file interface content to_list to_ft sort verbose :
  truthy file = true -> truthy interface = false ->
  fs (py_str file) = Some content ->
  __init__ ts_leb Ethernet FlowTable_new push fs file interface
    true to_list to_ft sort verbose
  = mk_constructed
      (Ok (mk_self file interface true to_list to_ft None sort verbose
             (Some (AttrGenerator (read_itr verbose))) None))
      (Some (f_open content)) [].
Proof.
  intros Hfile Hiface Hfs. unfold __init__.
  rewrite Hfile, Hiface, Hfs. reflexivity.
Qed.

Lemma init_materialized_ok fs file interface content to_ft sort verbose :
  truthy file = true -> truthy interface = false ->
  fs (py_str file) = Some content ->
  eager_failure Ethernet content = None ->
  let packets :=
    if sort || to_ft
    then sort_by_timestamp ts_leb (ip_packets Ethernet (cf_records content))
    else ip_packets Ethernet (cf_records content) in
  __init__ ts_leb Ethernet FlowTable_new push fs file interface
    false true to_ft sort verbose
  = mk_constructed
      (Ok (mk_self file interface false true to_ft
             (if to_ft then Some (push_all push FlowTable_new packets) else None)
             sort verbose None (Some packets)))
      (Some (mk_file [] true))
      (if verbose
       then [totals_message
               (count (is_ip Ethernet) (cf_records content)
                + count (is_other Ethernet) (cf_records content))
               (count (is_other Ethernet) (cf_records content))]
       else []).
Proof.
  intros Hfile Hiface Hfs Hok. unfold __init__.
  rewrite Hfile, Hiface, Hfs. cbn [negb andb].
  rewrite (read_packets_ok _ _ _ Hok).
  destruct to_ft, verbose; reflexivity.
Qed.

Lemma init_materialized fs file interface content to_ft sort verbose :
  truthy file = true -> truthy interface = false ->
  fs (py_str file) = Some (whole content) ->
  first_escape Ethernet content = None ->
  let packets :=
    if sort || to_ft
    then sort_by_timestamp ts_leb (ip_packets Ethernet content)
    else ip_packets Ethernet content in
  __init__ ts_leb Ethernet FlowTable_new push fs file interface
    false true to_ft sort verbose
  = mk_constructed
      (Ok (mk_self file interface false true to_ft
             (if to_ft then Some (push_all push FlowTable_new packets) else None)
             sort verbose None (Some packets)))
      (Some (mk_file [] true))
      (if verbose
       then [totals_message
               (count (is_ip Ethernet) content + count (is_other Ethernet) content)
               (count (is_other Ethernet) content)]
       else []).
Proof.
  intros Hfile Hiface Hfs Hclean.
  apply (init_materialized_ok fs file interface (whole content)); auto.
  now rewrite eager_failure_whole.
Qed.

(** When something ends the eager read early the constructor raises it;
    [f.close()] is not reached and nothing is printed. *)
Lemma init_materialized_fails fs file interface content to_ft sort verbose e :
  truthy file = true -> truthy interface = false ->
  fs (py_str file) = Some content ->
  eager_failure Ethernet content = Some e ->
  exists f',
    __init__ ts_leb Ethernet FlowTable_new push fs file interface
      false true to_ft sort verbose
    = mk_constructed (Raise e) (Some f') []
    /\ f_closed f' = false.
Proof.
  intros Hfile Hiface Hfs Hfail. unfold __init__.
  rewrite Hfile, Hiface, Hfs. cbn [negb andb].
  destruct (read_packets_fails verbose content [] e Hfail) as (f' & -> & Hf').
  exists f'. split; [reflexivity|exact Hf'].
Qed.

Lemma init_no_mode fs file interface content to_ft sort verbose :
  truthy file = true -> truthy interface = false ->
  fs (py_str file) = Some content ->
  __init__ ts_leb Ethernet FlowTable_new push fs file interface
    false false to_ft sort verbose
  = mk_constructed
      (Ok (mk_self file interface false false to_ft None sort verbose None None))
      (Some (f_open content)) [].
Proof.
  intros Hfile Hiface Hfs. unfold __init__.
  rewrite Hfile, Hiface, Hfs. reflexivity.
Qed.

(** The loop that fills the flow table pushes the packets of the list, one
    by one from the front, each without its timestamp. *)
Lemma push_all_fold (ft : FlowTable) packets :
  push_all push ft packets = fold_left push (map fst packets) ft.
Proof.
  unfold push_all. revert ft.
  induction packets as [|x packets IH]; intros ft; [reflexivity|].
  simpl. apply IH.
Qed.

(** ** The stable sort *)

Section Sorting.

Hypothesis ts_leb_total : forall a b, ts_leb a b = true \/ ts_leb b a = true.
Hypothesis ts_leb_trans : forall a b c,
  ts_leb a b = true -> ts_leb b c = true -> ts_leb a c = true.

Lemma insert_by_timestamp_perm x l :
  Permutation (x :: l) (insert_by_timestamp ts_leb x l).
Proof.
  induction l as [|y l IH]; simpl; [apply Permutation_refl|].
  destruct (ts_leb (snd x) (snd y)); [apply Permutation_refl|].
  eapply perm_trans; [apply perm_swap|]. now apply perm_skip.
Qed.

Lemma sort_by_timestamp_perm l :
  Permutation l (sort_by_timestamp ts_leb l).
Proof.
  induction l as [|x l IH]; simpl; [constructor|].
  eapply perm_trans; [apply perm_skip, IH|].
  apply insert_by_timestamp_perm.
Qed.

Lemma insert_by_timestamp_ascending x l :
  ascending ts_leb l -> ascending ts_leb (insert_by_timestamp ts_leb x l).
Proof.
  unfold ascending. induction l as [|y l IH]; intros Hl; simpl.
  - repeat constructor.
  - inversion Hl as [|? ? Hsorted Hall]; subst.
    destruct (ts_leb (snd x) (snd y)) eqn:Hxy.
    + constructor; [exact Hl|]. constructor; [exact Hxy|].
      eapply Forall_impl; [|exact Hall]. intros z Hz. simpl in Hz.
      now apply ts_leb_trans with (snd y).
    + constructor; [now apply IH|].
      eapply Permutation_Forall; [apply insert_by_timestamp_perm|].
      constructor; [|exact Hall].
      destruct (ts_leb_total (snd x) (snd y)) as [H|H]; [congruence|exact H].
Qed.

Lemma sort_by_timestamp_ascending l :
  ascending ts_leb (sort_by_timestamp ts_leb l).
Proof.
  induction l as [|x l IH]; simpl; [constructor|].
  now apply insert_by_timestamp_ascending.
Qed.

(** Insertion passes only over strictly earlier packets, so it never
    crosses a packet of the same timestamp. *)
Lemma insert_by_timestamp_tied t x l :
  tied_with ts_leb t (insert_by_timestamp ts_leb x l)
  = tied_with ts_leb t (x :: l).
Proof.
  unfold tied_with. induction l as [|y l IH]; [reflexivity|].
  simpl. destruct (ts_leb (snd x) (snd y)) eqn:Hxy; [reflexivity|].
  simpl. rewrite IH. simpl.
  destruct (ts_tie ts_leb (snd y) t) eqn:Hy; [|reflexivity].
  destruct (ts_tie ts_leb (snd x) t) eqn:Hx; [|reflexivity].
  unfold ts_tie in Hx, Hy.
  apply andb_prop in Hx as [Hxt _]. apply andb_prop in Hy as [_ Hty].
  rewrite (ts_leb_trans _ _ _ Hxt Hty) in Hxy. discriminate.
Qed.

Lemma sort_by_timestamp_tied t l :
  tied_with ts_leb t (sort_by_timestamp ts_leb l) = tied_with ts_leb t l.
Proof.
  induction l as [|x l IH]; [reflexivity|].
  simpl. rewrite insert_by_timestamp_tied.
  unfold tied_with in *. simpl. now rewrite IH.
Qed.

(** C3: in materialized mode, when [sort] or [to_ft] is set, the list the
    instance exposes is the capture's IP packets stably sorted by ascending
    timestamp (ascending, a permutation, and the packets of any one
    timestamp in their capture order); with [to_ft] the flow table is a
    fresh table into which the IP packets of exactly that sorted list were
    pushed one after the other, front to back -- for every table and every
    [push], so for a table that records its pushes the record is the
    sorted list.  [sort] may be false: [to_ft] alone forces the sort.  The
    capture is one the eager read gets through: a capture file that is
    nothing but its records, on none of which the decoder raises past the
    handler. *)
Theorem materialized_sorted_before_exposed
    fs file interface content to_ft sort verbose :
  truthy file = true -> truthy interface = false ->
  fs (py_str file) = Some (whole content) ->
  first_escape Ethernet content = None ->
  sort || to_ft = true ->
  exists self packets,
    c_result (__init__ ts_leb Ethernet FlowTable_new push fs file interface
                false true to_ft sort verbose) = Ok self
    /\ self_packets self = Some packets
    /\ packets = sort_by_timestamp ts_leb (ip_packets Ethernet content)
    /\ ascending ts_leb packets
    /\ Permutation (ip_packets Ethernet content) packets
    /\ (forall t, tied_with ts_leb t packets
                  = tied_with ts_leb t (ip_packets Ethernet content))
    /\ self_ft self
       = (if to_ft
          then Some (fold_left push (map fst packets) FlowTable_new)
          else None).
Proof.
  intros Hfile Hiface Hfs Hclean Hsort.
  rewrite (init_materialized _ _ _ _ _ _ _ Hfile Hiface Hfs Hclean). rewrite Hsort.
  eexists. eexists. simpl.
  split; [reflexivity|]. split; [reflexivity|]. split; [reflexivity|].
  split; [apply sort_by_timestamp_ascending|].
  split; [apply sort_by_timestamp_perm|].
  split; [intros t; apply sort_by_timestamp_tied|].
  destruct to_ft; [|reflexivity]. now rewrite push_all_fold.
Qed.

End Sorting.

(** ** The claims about reading *)

(** C1 (as amended): in materialized mode [skipped] counts the records that
    are not IP, the list holds the decoded IP packets, and [skipped] plus
    the length of the list is [total] -- but [total] counts only the records
    whose envelope unpacked: a record that raises [UnpackError] is dropped
    and counted nowhere, so [total] plus the number of such records is the
    number of records of the capture.  Ten records with two non-IP and one
    truncated give total 9, skipped 2, used 7 and a list of length 7.  This
    holds whenever the loop ends, and it ends on every capture on whose
    records the decoder raises nothing past the handler. *)
Theorem read_packets_counts verbose pcaps out :
  (first_escape Ethernet pcaps = None ->
   exists packets total skipped,
     read_packets_loop Ethernet pcaps [] 0 0 = Ok (packets, total, skipped)
     /\ read_packets Ethernet verbose (f_open (whole pcaps)) out
        = (Ok packets, mk_file [] false,
           if verbose then out ++ [totals_message total skipped] else out)
     /\ skipped = count (is_other Ethernet) pcaps
     /\ List.length packets = count (is_ip Ethernet) pcaps
     /\ skipped + List.length packets = total
     /\ total - skipped = List.length packets
     /\ total + count (is_malformed Ethernet) pcaps = List.length pcaps
     /\ (List.length pcaps = 10 ->
         count (is_other Ethernet) pcaps = 2 ->
         count (is_malformed Ethernet) pcaps = 1 ->
         total = 9 /\ skipped = 2 /\ List.length packets = 7))
  /\ (forall packets total skipped,
        read_packets_loop Ethernet pcaps [] 0 0 = Ok (packets, total, skipped) ->
        skipped = count (is_other Ethernet) pcaps
        /\ List.length packets = count (is_ip Ethernet) pcaps
        /\ skipped + List.length packets = total
        /\ total - skipped = List.length packets
        /\ total + count (is_malformed Ethernet) pcaps = List.length pcaps).
Proof.
  pose proof (length_ip_packets pcaps) as Hlen. split.
  - intros Hclean. pose proof (count_partition pcaps Hclean) as Hpart.
    exists (ip_packets Ethernet pcaps),
           (count (is_ip Ethernet) pcaps + count (is_other Ethernet) pcaps),
           (count (is_other Ethernet) pcaps).
    split; [now rewrite read_packets_loop_spec, Hclean|].
    split; [now apply read_packets_open|].
    repeat split; lia.
  - intros packets total skipped H. rewrite read_packets_loop_spec in H.
    destruct (first_escape Ethernet pcaps) eqn:Hclean; [discriminate|].
    pose proof (count_partition pcaps Hclean) as Hpart.
    injection H as <- <- <-. repeat split; simpl; lia.
Qed.


(** C5 (as amended): once the generator is suspended at its [yield], a
    failure of the reader that raises [ValueError] ends the sequence
    silently.  Reading from a file closed under the generator is such a
    failure: the next pull gives [StopIteration], the generator is finished
    for good, and a consumer draining it returns normally with what it had.
    A failure of the reader behind the last whole record does the same when
    it is a [ValueError]; an exception of any other class is not absorbed:
    the pull, and the consumer draining the generator, get that
    exception. *)
Theorem read_itr_closed_file_ends_silently g f out :
  gen_state g = GenSuspended ->
  (f_closed f = true ->
   gen_next Ethernet g f out
   = (StopIteration, mk_gen GenFinished (gen_verbose g), f, out)
   /\ (forall f' out',
         gen_next Ethernet (mk_gen GenFinished (gen_verbose g)) f' out'
         = (StopIteration, mk_gen GenFinished (gen_verbose g), f', out'))
   /\ (forall fuel acc,
         list_of_gen Ethernet (S fuel) g f out acc
         = Some (Ok acc, mk_gen GenFinished (gen_verbose g), f, out)))
  /\ (forall e,
        f_closed f = false ->
        first_escape Ethernet (f_unread f) = None ->
        f_tail f = Some e ->
        (ip_packets Ethernet (f_unread f) = [] ->
         gen_next Ethernet g f out
         = (if is_ValueError e then StopIteration else Raised e,
            mk_gen GenFinished (gen_verbose g), set_unread f [],
            out ++ unpack_log Ethernet (gen_verbose g) (f_unread f)))
        /\ (forall fuel acc,
              List.length (f_unread f) < fuel ->
              exists f' out',
                list_of_gen Ethernet fuel g f out acc
                = Some (if is_ValueError e
                        then Ok (acc ++ ip_packets Ethernet (f_unread f))
                        else Raise e,
                        mk_gen GenFinished (gen_verbose g), f', out'))).
Proof.
  intros Hg. split.
  - intros Hf.
    assert (H : gen_next Ethernet g f out
                = (StopIteration, mk_gen GenFinished (gen_verbose g), f, out)).
    { unfold gen_next, read_itr_resume, closed_check. now rewrite Hg, Hf. }
    split; [exact H|]. split; [reflexivity|].
    intros fuel acc. simpl. now rewrite H.
  - intros e Hf Hclean Htail. split.
    + intros Hip. unfold gen_next, read_itr_resume, closed_check. rewrite Hg, Hf.
      rewrite (read_itr_loop_no_ip _ _ _ Hip Hclean), Htail.
      unfold outer_except. now destruct (is_ValueError e).
    + intros fuel acc Hfuel. destruct f as [header unread tail closed].
      simpl in *. subst closed tail.
      destruct (list_of_gen_result fuel unread header (Some e) g out acc)
        as (f' & out' & H & _); [congruence|congruence|exact Hfuel|].
      exists f', out'. rewrite H. unfold drained, stream_failure.
      rewrite Hclean, (ip_before_escape_clean _ Hclean).
      now destruct (is_ValueError e).
Qed.


(** ** The claims about construction and access *)

(** C4: the constructor's checks.  With both [file] and [interface] given,
    or with neither, it raises [ValueError]; with an interface alone it
    raises [NotImplementedError]; with a file alone that does not open it
    raises [FileNotFoundError].  In each case no instance is returned, no
    file object exists and nothing was read or printed.  (Given means true
    in Python's sense: not [None], not the empty string.) *)
Theorem init_validation fs file interface to_itr to_list to_ft sort verbose :
  let c := __init__ ts_leb Ethernet FlowTable_new push fs file interface
             to_itr to_list to_ft sort verbose in
  (truthy file = true -> truthy interface = true ->
   c = mk_constructed
         (Raise (ValueError ("Both file " ++ py_str file ++ " and Network Interface "
                               ++ py_str interface ++ " specified.")%string))
         None [])
  /\ (truthy file = false -> truthy interface = false ->
      c = mk_constructed
            (Raise (ValueError "File or Network interface is required")) None [])
  /\ (truthy file = false -> truthy interface = true ->
      c = mk_constructed
            (Raise (NotImplementedError "Live packet capture not implemented")) None [])
  /\ (truthy file = true -> truthy interface = false ->
      fs (py_str file) = None ->
      c = mk_constructed
            (Raise (FileNotFoundError ("File " ++ py_str file ++ " not found!")%string))
            None []).
Proof.
  unfold __init__. repeat split.
  - intros -> ->. reflexivity.
  - intros -> ->. reflexivity.
  - intros -> ->. reflexivity.
  - intros -> -> ->. reflexivity.
Qed.

(** The constructor returns an instance only for a file alone that opens. *)
Lemma init_ok_inv fs file interface to_itr to_list to_ft sort verbose self :
  c_result (__init__ ts_leb Ethernet FlowTable_new push fs file interface
              to_itr to_list to_ft sort verbose) = Ok self ->
  truthy file = true /\ truthy interface = false
  /\ exists content, fs (py_str file) = Some content.
Proof.
  intros H.
  destruct (truthy file) eqn:Hfile, (truthy interface) eqn:Hiface;
    try (unfold __init__ in H; rewrite Hfile, Hiface in H; discriminate).
  destruct (fs (py_str file)) as [content|] eqn:Hfs;
    [|unfold __init__ in H; rewrite Hfile, Hiface, Hfs in H; discriminate].
  eauto.
Qed.

(** What the materialized constructor does on a file that opens, by what
    the eager read comes to. *)
Lemma init_materialized_cases fs file interface content to_ft sort verbose :
  truthy file = true -> truthy interface = false ->
  fs (py_str file) = Some content ->
  let c := __init__ ts_leb Ethernet FlowTable_new push fs file interface
             false true to_ft sort verbose in
  (eager_failure Ethernet content = None
   /\ exists self, c_result c = Ok self /\ self_packets_itr self = None
                   /\ c_file c = Some (mk_file [] true))
  \/ (exists e f',
        eager_failure Ethernet content = Some e
        /\ c = mk_constructed (Raise e) (Some f') [] /\ f_closed f' = false).
Proof.
  intros Hfile Hiface Hfs c. subst c.
  destruct (eager_failure Ethernet content) as [e|] eqn:E.
  - right. destruct (init_materialized_fails _ _ _ _ to_ft sort verbose _
                       Hfile Hiface Hfs E) as (f' & H & Hf').
    exists e, f'. auto.
  - left. split; [reflexivity|].
    rewrite (init_materialized_ok _ _ _ _ _ _ _ Hfile Hiface Hfs E).
    eexists. repeat split.
Qed.

(** C6: whenever the constructor, called without [to_itr], returns an
    instance, [get_itr] on that instance raises the [ValueError] that names
    the misuse; and it does return one on a file that opens, unless the
    eager read of materialized mode raises: the error comes at the access,
    not at construction. *)
Theorem get_itr_on_materialized_raises
    fs file interface to_list to_ft sort verbose :
  let c := __init__ ts_leb Ethernet FlowTable_new push fs file interface
             false to_list to_ft sort verbose in
  (forall self,
     c_result c = Ok self ->
     get_itr self = Raise (ValueError "PacketReader was not initialised using to_itr"))
  /\ (forall content,
        truthy file = true -> truthy interface = false ->
        fs (py_str file) = Some content ->
        (to_list = true -> eager_failure Ethernet content = None) ->
        exists self, c_result c = Ok self).
Proof.
  intros c. subst c. split.
  - intros self H.
    destruct (init_ok_inv _ _ _ _ _ _ _ _ _ H) as (Hfile & Hiface & content & Hfs).
    destruct to_list.
    + destruct (init_materialized_cases _ _ _ _ to_ft sort verbose Hfile Hiface Hfs)
        as [(_ & self' & Hself & Hitr & _)|(e & f' & _ & Hc & _)].
      * rewrite Hself in H. injection H as <-. unfold get_itr. now rewrite Hitr.
      * rewrite Hc in H. discriminate.
    + rewrite (init_no_mode _ _ _ _ _ _ _ Hfile Hiface Hfs) in H.
      simpl in H. injection H as <-. reflexivity.
  - intros content Hfile Hiface Hfs Hok. destruct to_list.
    + rewrite (init_materialized_ok _ _ _ _ _ _ _ Hfile Hiface Hfs (Hok eq_refl)).
      eexists. reflexivity.
    + rewrite (init_no_mode _ _ _ _ _ _ _ Hfile Hiface Hfs). eexists. reflexivity.
Qed.

(** C9: with [to_itr] true (its default) the other mode arguments change
    nothing but the attributes that record them: no list is built (the
    attribute [packets] is not even set), nothing is sorted, no flow table
    is made and [get_flow_table] returns [None], even with [to_ft]; the
    instance holds a generator that has not started, the file is open with
    every record unread, and nothing was printed.  This is so whatever the
    file holds: nothing of it is read. *)
Theorem to_itr_takes_precedence
    fs file interface content to_list to_ft sort verbose :
  truthy file = true -> truthy interface = false ->
  fs (py_str file) = Some content ->
  exists self,
    __init__ ts_leb Ethernet FlowTable_new push fs file interface
      true to_list to_ft sort verbose
    = mk_constructed (Ok self) (Some (f_open content)) []
    /\ self_packets self = None
    /\ self_ft self = None
    /\ get_flow_table self = None
    /\ get_itr self = Ok (Some (read_itr verbose))
    /\ with_defaults ts_leb Ethernet FlowTable_new push fs (py_str file)
       = mk_constructed
           (Ok (mk_self (Some (py_str file)) None true false false None false false
                  (Some (AttrGenerator (read_itr false))) None))
           (Some (f_open content)) [].
Proof.
  intros Hfile Hiface Hfs.
  rewrite (init_streaming _ _ _ _ _ _ _ _ Hfile Hiface Hfs).
  eexists. split; [reflexivity|]. repeat split.
  unfold with_defaults.
  destruct file as [path|]; [|discriminate]. simpl in *.
  now rewrite (init_streaming _ (Some path) None content).
Qed.

(** C10: with a file that opens and both [to_itr] and [to_list] false the
    constructor returns an instance without error and reads nothing: the
    file is open with every record unread, there is no list, no generator
    and no flow table, nothing was printed; [get_itr] then raises the
    [ValueError] about [to_itr].  This is so whatever the file holds. *)
Theorem init_without_mode fs file interface content to_ft sort verbose :
  truthy file = true -> truthy interface = false ->
  fs (py_str file) = Some content ->
  exists self,
    __init__ ts_leb Ethernet FlowTable_new push fs file interface
      false false to_ft sort verbose
    = mk_constructed (Ok self) (Some (f_open content)) []
    /\ f_unread (f_open content) = cf_records content
    /\ f_closed (f_open content) = false
    /\ self_packets self = None
    /\ self_packets_itr self = None
    /\ self_ft self = None
    /\ get_itr self
       = Raise (ValueError "PacketReader was not initialised using to_itr").
Proof.
  intros Hfile Hiface Hfs.
  rewrite (init_no_mode _ _ _ _ _ _ _ Hfile Hiface Hfs).
  eexists. split; [reflexivity|]. repeat split.
Qed.

End Properties.


(** * The small instance at work *)

Lemma Zleb_total (a b : Z) : Z.leb a b = true \/ Z.leb b a = true.
Proof.
  destruct (Z.leb_spec a b) as [H|H]; [now left|right].
  apply Z.leb_le. lia.
Qed.

Lemma Zleb_trans (a b c : Z) :
  Z.leb a b = true -> Z.leb b c = true -> Z.leb a c = true.
Proof.
  rewrite !Z.leb_le. lia.
Qed.

(** C1, as stated, fails: the capture of [Demo] has ten records of which two
    are not IP and one is truncated, and on it the counters end at total 9
    and skipped 2, not 10 and 3; skipped plus used is 9, not the ten records
    of the capture; verbose mode prints exactly that. *)
Lemma read_packets_counts_miss_malformed :
  List.length Demo.capture = 10
  /\ count (is_other Demo.Ethernet) Demo.capture = 2
  /\ count (is_malformed Demo.Ethernet) Demo.capture = 1
  /\ exists packets,
       read_packets_loop Demo.Ethernet Demo.capture [] 0 0 = Ok (packets, 9, 2)
       /\ List.length packets = 7
       /\ 2 + List.length packets <> List.length Demo.capture
       /\ snd (read_packets Demo.Ethernet true (f_open (whole Demo.capture)) [])
          = ["Total 9 packets found. Using 7."%string].
Proof.
  split; [reflexivity|]. split; [reflexivity|]. split; [reflexivity|].
  eexists. split; [reflexivity|]. split; [reflexivity|].
  split; [discriminate|reflexivity].
Qed.

Lemma read_packets_counts_witness :
  exists packets total skipped,
    read_packets_loop Demo.Ethernet Demo.capture [] 0 0 = Ok (packets, total, skipped)
    /\ total = 9 /\ skipped = 2 /\ List.length packets = 7.
Proof.
  destruct (proj1 (read_packets_counts Demo.Ethernet false Demo.capture []) eq_refl)
    as (packets & total & skipped & Hloop & _ & _ & _ & _ & _ & _ & Hscenario).
  exists packets, total, skipped. split; [exact Hloop|].
  apply Hscenario; reflexivity.
Defined.


Lemma materialized_sorted_witness :
  exists self packets,
    c_result (Demo.init (Some "./data/dns.cap"%string) None false true true false false)
    = Ok self
    /\ self_packets self = Some packets
    /\ packets = sort_by_timestamp Z.leb (ip_packets Demo.Ethernet Demo.capture)
    /\ ascending Z.leb packets
    /\ Permutation (ip_packets Demo.Ethernet Demo.capture) packets
    /\ (forall t, tied_with Z.leb t packets
                  = tied_with Z.leb t (ip_packets Demo.Ethernet Demo.capture))
    /\ self_ft self
       = Some [[x45; x07]; [x45; x05]; [x45; x06]; [x45; x02]; [x45; x03];
               [x45; x04]; [x45; x01]].
Proof.
  destruct (materialized_sorted_before_exposed Z.leb Demo.Ethernet
              Demo.FlowTable_new Demo.push Zleb_total Zleb_trans Demo.fs
              (Some "./data/dns.cap"%string) None Demo.capture true false false
              eq_refl eq_refl eq_refl eq_refl eq_refl)
    as (self & packets & Hself & Hpackets & Hsorted & Hasc & Hperm & Hties & Hft).
  exists self, packets. repeat split; try assumption.
  rewrite Hft, Hsorted. reflexivity.
Defined.

(** What that construction exposes: the seven IP packets by ascending
    timestamp, ties in capture order, and the same order in the flow table. *)
Lemma demo_materialized_sorted :
  exists self,
    c_result (Demo.init (Some "./data/dns.cap"%string) None false true true false false)
    = Ok self
    /\ option_map (map snd) (self_packets self)
       = Some [10; 20; 20; 30; 30; 40; 50]%Z
    /\ option_map (map fst) (self_packets self) = self_ft self
    /\ self_ft self
       = Some [[x45; x07]; [x45; x05]; [x45; x06]; [x45; x02]; [x45; x03];
               [x45; x04]; [x45; x01]].
Proof.
  eexists. split; [reflexivity|]. repeat split.
Qed.

Lemma init_validation_witness :
  Demo.init (Some "a.pcap"%string) (Some "eth0"%string) true false false false false
  = mk_constructed
      (Raise (ValueError "Both file a.pcap and Network Interface eth0 specified."))
      None []
  /\ Demo.init None None true false false false false
     = mk_constructed
         (Raise (ValueError "File or Network interface is required")) None []
  /\ Demo.init None (Some "eth0"%string) true false false false false
     = mk_constructed
         (Raise (NotImplementedError "Live packet capture not implemented")) None []
  /\ Demo.init (Some "a.pcap"%string) None true false false false false
     = mk_constructed (Raise (FileNotFoundError "File a.pcap not found!")) None [].
Proof.
  split; [|split; [|split]].
  - apply (init_validation Z.leb Demo.Ethernet Demo.FlowTable_new Demo.push Demo.fs
             (Some "a.pcap"%string) (Some "eth0"%string)); reflexivity.
  - apply (init_validation Z.leb Demo.Ethernet Demo.FlowTable_new Demo.push Demo.fs
             None None); reflexivity.
  - apply (init_validation Z.leb Demo.Ethernet Demo.FlowTable_new Demo.push Demo.fs
             None (Some "eth0"%string)); reflexivity.
  - apply (init_validation Z.leb Demo.Ethernet Demo.FlowTable_new Demo.push Demo.fs
             (Some "a.pcap"%string) None); reflexivity.
Defined.

(** C5, as stated, fails: over a capture cut in the middle of its second
    record header the first pull yields the packet of the first record and
    the second pull hands the consumer the reader's [NeedData]; a consumer
    draining the generator gets that exception, not the end of the
    sequence. *)
Lemma read_itr_reader_failure_propagates :
  gen_next DemoFaulty.Ethernet (read_itr false) (f_open DemoFaulty.cut_capture) []
  = (Yielded ([x45; x01], 10%Z), mk_gen GenSuspended false,
     set_unread (f_open DemoFaulty.cut_capture) [], [])
  /\ gen_next DemoFaulty.Ethernet (mk_gen GenSuspended false)
       (set_unread (f_open DemoFaulty.cut_capture) []) []
     = (Raised (NeedData "got 7, 16 needed at least"), mk_gen GenFinished false,
        set_unread (f_open DemoFaulty.cut_capture) [], [])
  /\ list_of_gen DemoFaulty.Ethernet 3 (read_itr false)
       (f_open DemoFaulty.cut_capture) [] []
     = Some (Raise (NeedData "got 7, 16 needed at least"), mk_gen GenFinished false,
             set_unread (f_open DemoFaulty.cut_capture) [], []).
Proof. repeat split. Qed.

(** One pull, then the file is closed under the suspended generator; and
    the same generator over the capture cut short. *)
Lemma read_itr_closed_file_witness :
  gen_next Demo.Ethernet (read_itr false) (f_open (whole Demo.capture)) []
  = (Yielded ([x45; x01], 50%Z), mk_gen GenSuspended false,
     mk_file (tl Demo.capture) false, [])
  /\ gen_next Demo.Ethernet (mk_gen GenSuspended false)
       (close (mk_file (tl Demo.capture) false)) []
     = (StopIteration, mk_gen GenFinished false,
        close (mk_file (tl Demo.capture) false), [])
  /\ gen_next Demo.Ethernet (mk_gen GenSuspended false)
       (set_unread (f_open DemoFaulty.cut_capture) []) []
     = (Raised (NeedData "got 7, 16 needed at least"), mk_gen GenFinished false,
        set_unread (f_open DemoFaulty.cut_capture) [], []).
Proof.
  split; [reflexivity|].
  destruct (read_itr_closed_file_ends_silently Demo.Ethernet
              (mk_gen GenSuspended false) (close (mk_file (tl Demo.capture) false)) []
              eq_refl) as ((Hclosed & _) & _); [reflexivity|].
  split; [exact Hclosed|].
  destruct (read_itr_closed_file_ends_silently Demo.Ethernet
              (mk_gen GenSuspended false)
              (set_unread (f_open DemoFaulty.cut_capture) []) [] eq_refl)
    as (_ & Htail).
  destruct (Htail (NeedData "got 7, 16 needed at least") eq_refl eq_refl eq_refl)
    as (Hpull & _).
  exact (Hpull eq_refl).
Defined.

(** The boundary of C5: before the first pull the reader has not been made
    yet; making it on a closed file raises outside the [try]. *)
Lemma read_itr_closed_before_first_pull :
  gen_next Demo.Ethernet (read_itr false) (close (f_open (whole Demo.capture))) []
  = (Raised (ValueError "read of closed file"), mk_gen GenFinished false,
     close (f_open (whole Demo.capture)), []).
Proof. reflexivity. Qed.



Lemma get_itr_on_materialized_witness :
  exists self,
    c_result (Demo.init (Some "./data/dns.cap"%string) None false true false false false)
    = Ok self
    /\ get_itr self
       = Raise (ValueError "PacketReader was not initialised using to_itr").
Proof.
  destruct (get_itr_on_materialized_raises Z.leb Demo.Ethernet Demo.FlowTable_new
              Demo.push Demo.fs (Some "./data/dns.cap"%string) None
              true false false false) as (Hraises & Hreturns).
  destruct (Hreturns (whole Demo.capture) eq_refl eq_refl eq_refl (fun _ => eq_refl))
    as (self & Hself).
  exists self. split; [exact Hself|]. apply Hraises, Hself.
Defined.

Lemma to_itr_takes_precedence_witness :
  exists self,
    Demo.init (Some "./data/dns.cap"%string) None true true true true false
    = mk_constructed (Ok self) (Some (f_open (whole Demo.capture))) []
    /\ self_packets self = None
    /\ self_ft self = None
    /\ get_flow_table self = None.
Proof.
  destruct (to_itr_takes_precedence Z.leb Demo.Ethernet Demo.FlowTable_new
              Demo.push Demo.fs (Some "./data/dns.cap"%string) None
              (whole Demo.capture)
              true true true false eq_refl eq_refl eq_refl)
    as (self & Hinit & Hpackets & Hft & Hget & _).
  exists self. repeat split; assumption.
Defined.

Lemma init_without_mode_witness :
  exists self,
    Demo.init (Some "./data/dns.cap"%string) None false false true true false
    = mk_constructed (Ok self) (Some (mk_file Demo.capture false)) []
    /\ get_itr self
       = Raise (ValueError "PacketReader was not initialised using to_itr").
Proof.
  destruct (init_without_mode Z.leb Demo.Ethernet Demo.FlowTable_new
              Demo.push Demo.fs (Some "./data/dns.cap"%string) None
              (whole Demo.capture)
              true true false eq_refl eq_refl eq_refl)
    as (self & Hinit & _ & _ & _ & _ & _ & Hget).
  exists self. split; assumption.
Defined.

(** ** The file object in streaming mode *)

(** However far a generator is drained, the file it reads through is as
    open afterwards as it was before. *)
Lemma list_of_gen_keeps_closed {Timestamp IP : Type} (Ethernet : bytes -> decoded IP)
    (fuel : nat) :
  forall g (f : file_obj Timestamp) out acc res g' f' out',
    list_of_gen Ethernet fuel g f out acc = Some (res, g', f', out') ->
    f_closed f' = f_closed f.
Proof.
  induction fuel as [|fuel IH]; intros g f out acc res g' f' out' H; [discriminate|].
  simpl in H. pose proof (gen_next_keeps_closed Ethernet g f out) as Hk.
  destruct (gen_next Ethernet g f out) as [[[[x| |e] g1] f1] out1]; simpl in Hk.
  - rewrite <- Hk. eapply IH, H.
  - injection H as _ _ <- _. exact Hk.
  - injection H as _ _ <- _. exact Hk.
Qed.

(** C8, where the code departs from it: the materialized constructor closes
    the file after the eager read, but in streaming mode nothing does: the
    constructor leaves the file open, the file is still open when the
    generator is exhausted, and closing the generator early ([gen_close]
    takes no file) leaves it open as well. *)
Theorem streaming_leaves_file_open :
  c_file (Demo.init (Some "./data/dns.cap"%string) None false true false false false)
  = Some (mk_file [] true)
  /\ c_file (Demo.init (Some "./data/dns.cap"%string) None true false false false false)
     = Some (mk_file Demo.capture false)
  /\ (exists l,
        list_of_gen Demo.Ethernet 11 (read_itr false) (f_open (whole Demo.capture)) [] []
        = Some (Ok l, mk_gen GenFinished false, mk_file [] false, []))
  /\ (exists x f',
        gen_next Demo.Ethernet (read_itr false) (f_open (whole Demo.capture)) []
        = (Yielded x, mk_gen GenSuspended false, f', [])
        /\ gen_close (mk_gen GenSuspended false) = mk_gen GenFinished false
        /\ f_closed f' = false).
Proof.
  split; [reflexivity|]. split; [reflexivity|]. split.
  - eexists. reflexivity.
  - eexists _, _. repeat split.
Qed.

(** * Further properties of the reader *)

Section Coverage.

Context {Timestamp IP FlowTable : Type}.
Variable ts_leb : Timestamp -> Timestamp -> bool.
Variable Ethernet : bytes -> decoded IP.
Variable FlowTable_new : FlowTable.
Variable push : FlowTable -> IP -> FlowTable.

Implicit Types (pcaps : list (record Timestamp)) (r : record Timestamp).
Implicit Types (packets l : list (pair_t Timestamp IP)).
Implicit Types (f : file_obj Timestamp) (g : generator) (out : list string).

(** ** What is in the list *)

Lemma ip_packets_In pcaps ip timestamp :
  In (ip, timestamp) (ip_packets Ethernet pcaps)
  <-> exists packet, In (timestamp, packet) pcaps /\ Ethernet packet = EthIP ip.
Proof.
  induction pcaps as [|[timestamp' packet'] pcaps IH]; simpl.
  - split; [intros []|intros (packet & [] & _)].
  - destruct (Ethernet packet') as [ip'| | |e'] eqn:E; simpl; rewrite IH; split;
      try (intros (packet & Hin & Hip); exists packet; split; [now right|exact Hip]);
      try (intros (packet & [H|Hin] & Hip);
           [injection H as -> ->; congruence|exists packet; now split]).
    + intros [H|(packet & Hin & Hip)].
      * injection H as -> ->. exists packet'. split; [now left|exact E].
      * exists packet. split; [now right|exact Hip].
    + intros (packet & [H|Hin] & Hip).
      * injection H as -> ->. left. congruence.
      * right. exists packet. now split.
Qed.

Lemma ip_packets_timestamps pcaps :
  map snd (ip_packets Ethernet pcaps) = map fst (filter (is_ip Ethernet) pcaps).
Proof.
  induction pcaps as [|[timestamp packet] pcaps IH]; [reflexivity|].
  simpl. unfold is_ip at 1. simpl.
  destruct (Ethernet packet); simpl; now rewrite IH.
Qed.

(** ** What the verbose generator prints *)

Lemma unpack_log_app verbose pcaps1 pcaps2 :
  unpack_log Ethernet verbose (pcaps1 ++ pcaps2)
  = unpack_log Ethernet verbose pcaps1 ++ unpack_log Ethernet verbose pcaps2.
Proof.
  induction pcaps1 as [|r pcaps1 IH]; [reflexivity|].
  simpl. now rewrite IH, app_assoc.
Qed.

Lemma unpack_log_count verbose pcaps :
  unpack_log Ethernet verbose pcaps
  = if verbose
    then repeat unpack_message (count (is_malformed Ethernet) pcaps)
    else [].
Proof.
  induction pcaps as [|r pcaps IH].
  - now destruct verbose.
  - rewrite count_cons. simpl. rewrite IH.
    destruct verbose, (is_malformed Ethernet r); reflexivity.
Qed.

(** ** One pull *)

(** A loop run that ends in a [yield] has read the records up to the first
    one that decodes to IP, and that record is what it yields. *)
Lemma read_itr_loop_split verbose pcaps : forall out x rest out',
  read_itr_loop Ethernet verbose pcaps out = (LoopYield x, rest, out') ->
  exists (pre : list (record Timestamp)) timestamp packet ip,
    pcaps = pre ++ (timestamp, packet) :: rest
    /\ ip_packets Ethernet pre = []
    /\ Ethernet packet = EthIP ip
    /\ x = (ip, timestamp)
    /\ out' = out ++ unpack_log Ethernet verbose pre.
Proof.
  induction pcaps as [|[timestamp packet] pcaps IH]; intros out x rest out' H; simpl in H.
  - discriminate.
  - destruct (Ethernet packet) as [ip| | |e] eqn:E.
    + injection H as <- <- <-.
      exists [], timestamp, packet, ip. simpl. rewrite app_nil_r. auto.
    + destruct (IH _ _ _ _ H) as (pre & ts & pk & ip & -> & Hpre & Hpk & -> & ->).
      exists ((timestamp, packet) :: pre), ts, pk, ip. simpl.
      unfold is_malformed. simpl. rewrite E, andb_false_r. auto.
    + destruct (IH _ _ _ _ H) as (pre & ts & pk & ip & -> & Hpre & Hpk & -> & ->).
      exists ((timestamp, packet) :: pre), ts, pk, ip. simpl.
      unfold is_malformed. simpl. rewrite E, andb_true_r.
      repeat split; auto.
      destruct verbose; simpl; [|reflexivity]. now rewrite <- app_assoc.
    + destruct (is_UnpackError e) eqn:Eu; [|discriminate].
      destruct (IH _ _ _ _ H) as (pre & ts & pk & ip & -> & Hpre & Hpk & -> & ->).
      exists ((timestamp, packet) :: pre), ts, pk, ip. simpl.
      unfold is_malformed. simpl. rewrite E, Eu, andb_true_r.
      repeat split; auto.
      destruct verbose; simpl; [|reflexivity]. now rewrite <- app_assoc.
Qed.

(** X4: a pull on a generator that is not finished, over an open file,
    reads the records up to the first one that decodes to IP and no
    further: it yields that packet with its timestamp, every record behind
    it stays unread, and a verbose generator has printed one line for each
    malformed record it passed.  If no unread record decodes to IP the pull
    reads the file to its end and stops.  The file is a capture that is
    nothing but its records, on none of which the decoder raises past the
    handler. *)
Theorem gen_next_reads_to_first_ip g f out :
  gen_state g <> GenFinished ->
  f_closed f = false ->
  f_header f = None -> f_tail f = None ->
  first_escape Ethernet (f_unread f) = None ->
  (exists (pre : list (record Timestamp)) timestamp packet ip rest,
     f_unread f = pre ++ (timestamp, packet) :: rest
     /\ ip_packets Ethernet pre = []
     /\ Ethernet packet = EthIP ip
     /\ gen_next Ethernet g f out
        = (Yielded (ip, timestamp), mk_gen GenSuspended (gen_verbose g),
           mk_file rest false,
           out ++ unpack_log Ethernet (gen_verbose g) pre))
  \/ (ip_packets Ethernet (f_unread f) = []
      /\ gen_next Ethernet g f out
         = (StopIteration, mk_gen GenFinished (gen_verbose g),
            mk_file [] false,
            out ++ unpack_log Ethernet (gen_verbose g) (f_unread f))).
Proof.
  intros Hg Hf Hh Ht Hclean. rewrite gen_next_open by auto.
  destruct f as [header unread tail closed]. simpl in *. subst header tail closed.
  unfold read_itr_resume, closed_check. simpl.
  destruct (read_itr_loop Ethernet (gen_verbose g) unread out)
    as [[[x| |e] rest] out'] eqn:E.
  - left. destruct (read_itr_loop_split _ _ _ _ _ _ E)
      as (pre & timestamp & packet & ip & Hsplit & Hpre & Hip & -> & ->).
    exists pre, timestamp, packet, ip, rest. auto.
  - right. destruct (read_itr_loop_end _ _ _ _ _ _ E) as (Hip & _ & _ & -> & ->). auto.
  - now elim (read_itr_loop_clean _ _ _ _ _ _ _ Hclean E).
Qed.

(** ** Several pulls *)

Lemma take_from_gen_open n : forall pcaps g out acc,
  first_escape Ethernet pcaps = None ->
  gen_state g <> GenFinished ->
  exists g' (pre rest : list (record Timestamp)) out',
    take_from_gen Ethernet n g (mk_file pcaps false) out acc
    = (Ok (acc ++ firstn n (ip_packets Ethernet pcaps)), g', mk_file rest false, out')
    /\ pcaps = pre ++ rest
    /\ ip_packets Ethernet pre = firstn n (ip_packets Ethernet pcaps)
    /\ ip_packets Ethernet rest = skipn n (ip_packets Ethernet pcaps).
Proof.
  induction n as [|n IH]; intros pcaps g out acc Hclean Hg.
  - exists g, [], pcaps, out. simpl. now rewrite app_nil_r.
  - simpl. rewrite gen_next_open by auto.
    unfold read_itr_resume, closed_check. simpl.
    destruct (read_itr_loop Ethernet (gen_verbose g) pcaps out)
      as [[[x| |e] rest1] out1] eqn:E.
    + destruct (read_itr_loop_split _ _ _ _ _ _ E)
        as (pre1 & timestamp & packet & ip & Hsplit & Hpre1 & Hip & -> & _).
      destruct (read_itr_loop_yield _ _ _ _ _ _ _ E) as (_ & _ & Hesc & _).
      destruct (IH rest1 (mk_gen GenSuspended (gen_verbose g)) out1
                  (acc ++ [(ip, timestamp)]))
        as (g' & pre & rest & out' & Htake & Hrest1 & Hpre & Hrest);
        [congruence|discriminate|].
      assert (Hall : ip_packets Ethernet pcaps
                     = (ip, timestamp) :: ip_packets Ethernet rest1).
      { rewrite Hsplit, ip_packets_app, Hpre1. simpl. now rewrite Hip. }
      exists g', (pre1 ++ (timestamp, packet) :: pre), rest, out'.
      rewrite Hall. simpl. repeat split; auto.
      * etransitivity; [exact Htake|]. now rewrite <- app_assoc.
      * rewrite Hsplit, Hrest1, <- app_assoc. reflexivity.
      * rewrite ip_packets_app, Hpre1. simpl. now rewrite Hip, Hpre.
    + destruct (read_itr_loop_end _ _ _ _ _ _ E) as (Hip & _ & _ & -> & ->).
      exists (mk_gen GenFinished (gen_verbose g)), pcaps, [],
             (out ++ unpack_log Ethernet (gen_verbose g) pcaps).
      rewrite Hip. simpl. rewrite !app_nil_r. auto.
    + now elim (read_itr_loop_clean _ _ _ _ _ _ _ Hclean E).
Qed.

(** X5: a consumer that stops after [n] pulls gets exactly the first [n]
    decoded IP packets of the capture (all of them when there are fewer),
    without error; the records left unread are a tail of the capture and
    hold exactly the remaining IP packets, so nothing behind the last pull
    was decoded or lost, and the file is still open.  The capture is
    nothing but its records, on none of which the decoder raises past the
    handler. *)
Theorem take_from_gen_prefix verbose n pcaps out :
  first_escape Ethernet pcaps = None ->
  exists g' (pre rest : list (record Timestamp)) out',
    take_from_gen Ethernet n (read_itr verbose) (f_open (whole pcaps)) out []
    = (Ok (firstn n (ip_packets Ethernet pcaps)), g', mk_file rest false, out')
    /\ pcaps = pre ++ rest
    /\ ip_packets Ethernet pre = firstn n (ip_packets Ethernet pcaps)
    /\ ip_packets Ethernet rest = skipn n (ip_packets Ethernet pcaps).
Proof.
  intros Hclean.
  destruct (take_from_gen_open n pcaps (read_itr verbose) out [] Hclean)
    as (g' & pre & rest & out' & H); [discriminate|].
  exists g', pre, rest, out'. exact H.
Qed.

(** X6: a verbose generator drained over a capture prints one line,
    [unpack_message], for each record that fails to unpack and nothing for
    a record that merely is not IP; a generator that is not verbose prints
    nothing.  The capture is nothing but its records, on none of which the
    decoder raises past the handler. *)
Theorem read_itr_prints_one_line_per_malformed verbose pcaps out fuel :
  first_escape Ethernet pcaps = None ->
  List.length pcaps < fuel ->
  list_of_gen Ethernet fuel (read_itr verbose) (f_open (whole pcaps)) out []
  = Some (Ok (ip_packets Ethernet pcaps), mk_gen GenFinished verbose,
          mk_file [] false,
          out ++ (if verbose
                  then repeat unpack_message (count (is_malformed Ethernet) pcaps)
                  else [])).
Proof.
  intros Hclean Hfuel. unfold f_open, whole. simpl.
  fold (@mk_file Timestamp pcaps false).
  rewrite list_of_gen_open; [|exact Hclean|discriminate|exact Hfuel].
  simpl. now rewrite unpack_log_count.
Qed.

(** X9: the generator is single pass.  Once a consumer has drained it, any
    further draining returns the empty list and reads nothing, whatever
    file object it is given -- even one with records in it. *)
Theorem read_itr_single_pass verbose pcaps out fuel :
  first_escape Ethernet pcaps = None ->
  List.length pcaps < fuel ->
  exists l g' f' out',
    list_of_gen Ethernet fuel (read_itr verbose) (f_open (whole pcaps)) out []
    = Some (Ok l, g', f', out')
    /\ forall fuel2 f2 out2,
         list_of_gen Ethernet (S fuel2) g' f2 out2 [] = Some (Ok [], g', f2, out2).
Proof.
  intros Hclean Hfuel. unfold f_open, whole. simpl.
  fold (@mk_file Timestamp pcaps false).
  rewrite list_of_gen_open; [|exact Hclean|discriminate|exact Hfuel].
  eexists _, _, _, _. split; [reflexivity|]. reflexivity.
Qed.

(** ** The constructor as a whole *)

(** X11: the constructor returns an instance exactly when a file is given,
    no interface is given, the file opens and, in materialized mode only
    ([to_itr] false and [to_list] true), nothing ends the eager read early:
    the reader accepts the header, the decoder raises nothing past the
    handler on any frame, and the reader does not raise behind the last
    whole record.  In streaming mode and with neither mode nothing of the
    file is read, so nothing in it can make the constructor fail; [to_ft],
    [sort] and [verbose] never do. *)
Theorem init_succeeds_iff fs file interface to_itr to_list to_ft sort verbose :
  (exists self,
     c_result (__init__ ts_leb Ethernet FlowTable_new push fs file interface
                 to_itr to_list to_ft sort verbose) = Ok self)
  <-> (truthy file = true /\ truthy interface = false
       /\ exists content,
            fs (py_str file) = Some content
            /\ (to_itr = false -> to_list = true ->
                eager_failure Ethernet content = None)).
Proof.
  split.
  - intros (self & H).
    destruct (init_ok_inv _ _ _ _ _ _ _ _ _ _ _ _ _ H)
      as (Hfile & Hiface & content & Hfs).
    split; [exact Hfile|]. split; [exact Hiface|].
    exists content. split; [exact Hfs|]. intros -> ->.
    destruct (init_materialized_cases ts_leb Ethernet FlowTable_new push
                _ _ _ _ to_ft sort verbose Hfile Hiface Hfs)
      as [(Hok & _)|(e & f' & _ & Hc & _)]; [exact Hok|].
    rewrite Hc in H. discriminate.
  - intros (Hfile & Hiface & content & Hfs & Hok).
    destruct to_itr; [|destruct to_list].
    + rewrite (init_streaming ts_leb Ethernet FlowTable_new push
                 _ _ _ _ _ _ _ _ Hfile Hiface Hfs). eexists. reflexivity.
    + rewrite (init_materialized_ok ts_leb Ethernet FlowTable_new push
                 _ _ _ _ _ _ _ Hfile Hiface Hfs (Hok eq_refl eq_refl)).
      eexists. reflexivity.
    + rewrite (init_no_mode ts_leb Ethernet FlowTable_new push
                 _ _ _ _ _ _ _ Hfile Hiface Hfs). eexists. reflexivity.
Qed.

(** X12: when the constructor raises, nothing was printed and the
    exception has one of five causes: neither argument given, both given, a
    file alone that does not open, an interface alone -- in these four no
    file object was opened -- or, in materialized mode, whatever ended the
    eager read early, and then the file was opened and is left open: the
    exception passes [f.close()] by. *)
Theorem init_failure_cases fs file interface to_itr to_list to_ft sort verbose e :
  let c := __init__ ts_leb Ethernet FlowTable_new push fs file interface
             to_itr to_list to_ft sort verbose in
  c_result c = Raise e ->
  c_stdout c = []
  /\ ((c_file c = None
       /\ ((truthy file = false /\ truthy interface = false
            /\ e = ValueError "File or Network interface is required")
           \/ (truthy file = true /\ truthy interface = true
               /\ e = ValueError ("Both file " ++ py_str file
                                    ++ " and Network Interface "
                                    ++ py_str interface ++ " specified.")%string)
           \/ (truthy file = true /\ truthy interface = false
               /\ fs (py_str file) = None
               /\ e = FileNotFoundError ("File " ++ py_str file ++ " not found!")%string)
           \/ (truthy file = false /\ truthy interface = true
               /\ e = NotImplementedError "Live packet capture not implemented")))
      \/ (truthy file = true /\ truthy interface = false
          /\ to_itr = false /\ to_list = true
          /\ exists content f',
               fs (py_str file) = Some content
               /\ eager_failure Ethernet content = Some e
               /\ c_file c = Some f' /\ f_closed f' = false)).
Proof.
  intros c H. subst c.
  destruct (truthy file) eqn:Hfile, (truthy interface) eqn:Hiface.
  - unfold __init__ in *. rewrite Hfile, Hiface in *. simpl in *.
    injection H as <-. split; [reflexivity|]. left. split; [reflexivity|].
    right. left. auto.
  - destruct (fs (py_str file)) as [content|] eqn:Hfs.
    + destruct to_itr; [|destruct to_list].
      * rewrite (init_streaming ts_leb Ethernet FlowTable_new push
                   _ _ _ _ _ _ _ _ Hfile Hiface Hfs) in H. discriminate.
      * destruct (init_materialized_cases ts_leb Ethernet FlowTable_new push
                    _ _ _ _ to_ft sort verbose Hfile Hiface Hfs)
          as [(_ & self & Hself & _)|(e' & f' & Hfail & Hc & Hf')].
        -- rewrite Hself in H. discriminate.
        -- rewrite Hc in *. simpl in H. injection H as ->.
           split; [reflexivity|]. right. repeat split; auto.
           exists content, f'. auto.
      * rewrite (init_no_mode ts_leb Ethernet FlowTable_new push
                   _ _ _ _ _ _ _ Hfile Hiface Hfs) in H. discriminate.
    + unfold __init__ in *. rewrite Hfile, Hiface, Hfs in *. simpl in *.
      injection H as <-. split; [reflexivity|]. left. split; [reflexivity|].
      right. right. left. auto.
  - unfold __init__ in *. rewrite Hfile, Hiface in *. simpl in *.
    injection H as <-. split; [reflexivity|]. left. split; [reflexivity|].
    right. right. right. auto.
  - unfold __init__ in *. rewrite Hfile, Hiface in *. simpl in *.
    injection H as <-. split; [reflexivity|]. left. split; [reflexivity|].
    left. auto.
Qed.

(** X3: an empty string counts as an argument not given.  With the empty
    string for [file] the constructor does exactly what it does with
    [None]; with the empty string for [interface] beside a file that opens
    it does not complain about two sources but goes on with the file (and
    returns an instance unless, in materialized mode, the eager read
    raises). *)
Theorem init_empty_string_is_absent
    fs file interface content to_itr to_list to_ft sort verbose :
  __init__ ts_leb Ethernet FlowTable_new push fs (Some ""%string) interface
    to_itr to_list to_ft sort verbose
  = __init__ ts_leb Ethernet FlowTable_new push fs None interface
      to_itr to_list to_ft sort verbose
  /\ (truthy file = true -> fs (py_str file) = Some content ->
      (to_itr = false -> to_list = true -> eager_failure Ethernet content = None) ->
      exists self,
        c_result (__init__ ts_leb Ethernet FlowTable_new push fs file (Some ""%string)
                    to_itr to_list to_ft sort verbose) = Ok self
        /\ self_interface self = Some ""%string).
Proof.
  split.
  - unfold __init__. simpl. destruct (truthy interface); reflexivity.
  - intros Hfile Hfs Hok. destruct to_itr; [|destruct to_list].
    + rewrite (init_streaming ts_leb Ethernet FlowTable_new push
                 _ _ (Some ""%string) _ _ _ _ _ Hfile eq_refl Hfs).
      eexists. split; reflexivity.
    + rewrite (init_materialized_ok ts_leb Ethernet FlowTable_new push
                 _ _ (Some ""%string) _ _ _ _ Hfile eq_refl Hfs (Hok eq_refl eq_refl)).
      eexists. split; [reflexivity|]. now destruct to_ft.
    + rewrite (init_no_mode ts_leb Ethernet FlowTable_new push
                 _ _ (Some ""%string) _ _ _ _ Hfile eq_refl Hfs).
      eexists. split; reflexivity.
Qed.


(** ** The list the materialized instance exposes *)

(** X1: in materialized mode with neither [sort] nor [to_ft] the list is
    exposed in capture order: it is the decoded IP packets as they came, so
    its timestamps are those of the capture's IP records in the order of
    the capture, sorted or not; no flow table is made and the file is
    closed.  The capture is one the eager read gets through. *)
Theorem materialized_without_sort_keeps_capture_order
    fs file interface content verbose :
  truthy file = true -> truthy interface = false ->
  fs (py_str file) = Some (whole content) ->
  first_escape Ethernet content = None ->
  exists self packets,
    c_result (__init__ ts_leb Ethernet FlowTable_new push fs file interface
                false true false false verbose) = Ok self
    /\ self_packets self = Some packets
    /\ packets = ip_packets Ethernet content
    /\ map snd packets = map fst (filter (is_ip Ethernet) content)
    /\ get_flow_table self = None
    /\ c_file (__init__ ts_leb Ethernet FlowTable_new push fs file interface
                 false true false false verbose) = Some (mk_file [] true).
Proof.
  intros Hfile Hiface Hfs Hclean.
  rewrite (init_materialized ts_leb Ethernet FlowTable_new push
             _ _ _ _ false false _ Hfile Hiface Hfs Hclean).
  eexists _, _. simpl. repeat split. apply ip_packets_timestamps.
Qed.

(** X2: whatever [sort] and [to_ft] are, the list of the materialized
    instance holds a pair exactly when the capture has a record with that
    timestamp whose frame decodes to that IP packet, and it holds as many
    pairs as the capture has such records: sorting neither drops, adds nor
    alters a pair.  The capture is one the eager read gets through. *)
Theorem materialized_list_members
    fs file interface content to_ft sort verbose :
  truthy file = true -> truthy interface = false ->
  fs (py_str file) = Some (whole content) ->
  first_escape Ethernet content = None ->
  exists self packets,
    c_result (__init__ ts_leb Ethernet FlowTable_new push fs file interface
                false true to_ft sort verbose) = Ok self
    /\ self_packets self = Some packets
    /\ (forall ip timestamp,
          In (ip, timestamp) packets
          <-> exists packet,
                In (timestamp, packet) content /\ Ethernet packet = EthIP ip)
    /\ List.length packets = count (is_ip Ethernet) content.
Proof.
  intros Hfile Hiface Hfs Hclean.
  rewrite (init_materialized ts_leb Ethernet FlowTable_new push
             _ _ _ _ _ _ _ Hfile Hiface Hfs Hclean).
  eexists _, _. simpl. split; [reflexivity|]. split; [reflexivity|].
  destruct (sort || to_ft).
  - pose proof (sort_by_timestamp_perm ts_leb (ip_packets Ethernet content)) as Hperm.
    split.
    + intros ip timestamp. rewrite <- ip_packets_In. split.
      * apply Permutation_in. now apply Permutation_sym.
      * now apply Permutation_in.
    + rewrite <- (Permutation_length Hperm). apply length_ip_packets.
  - split; [intros; apply ip_packets_In|apply length_ip_packets].
Qed.

(** Sorting a list that is already ascending changes nothing. *)
Lemma sort_by_timestamp_ascending_id l :
  ascending ts_leb l -> sort_by_timestamp ts_leb l = l.
Proof.
  unfold ascending. induction l as [|x l IH]; intros H; [reflexivity|].
  inversion H as [|? ? Hl Hall]; subst. simpl. rewrite (IH Hl).
  destruct l as [|y l]; [reflexivity|]. simpl.
  inversion Hall as [|? ? Hxy _]; subst. now rewrite Hxy.
Qed.

(** X7: when the IP packets of the capture already come in ascending
    timestamp order, the materialized instance exposes them in capture
    order whatever [sort] and [to_ft] are: asking for the sort changes
    nothing, and the list equals what the generator would deliver.  The
    capture is one the eager read gets through. *)
Theorem materialized_chronological_capture_unchanged
    fs file interface content to_ft sort verbose :
  truthy file = true -> truthy interface = false ->
  fs (py_str file) = Some (whole content) ->
  first_escape Ethernet content = None ->
  ascending ts_leb (ip_packets Ethernet content) ->
  exists self,
    c_result (__init__ ts_leb Ethernet FlowTable_new push fs file interface
                false true to_ft sort verbose) = Ok self
    /\ self_packets self = Some (ip_packets Ethernet content)
    /\ forall verbose_i fuel,
         List.length content < fuel ->
         exists g' f' out',
           list_of_gen Ethernet fuel (read_itr verbose_i) (f_open (whole content)) [] []
           = Some (Ok (ip_packets Ethernet content), g', f', out').
Proof.
  intros Hfile Hiface Hfs Hclean Hasc.
  rewrite (init_materialized ts_leb Ethernet FlowTable_new push
             _ _ _ _ _ _ _ Hfile Hiface Hfs Hclean).
  eexists. simpl. split; [reflexivity|]. split.
  - destruct (sort || to_ft); [|reflexivity].
    now rewrite sort_by_timestamp_ascending_id.
  - intros verbose_i fuel Hfuel. unfold f_open, whole. simpl.
    fold (@mk_file Timestamp content false).
    rewrite list_of_gen_open; [|exact Hclean|discriminate|exact Hfuel].
    eexists _, _, _. reflexivity.
Qed.

(** ** The sorted list is determined *)

Section StableOrder.

Hypothesis ts_leb_total : forall a b, ts_leb a b = true \/ ts_leb b a = true.
Hypothesis ts_leb_trans : forall a b c,
  ts_leb a b = true -> ts_leb b c = true -> ts_leb a c = true.

Lemma ts_leb_refl a : ts_leb a a = true.
Proof. now destruct (ts_leb_total a a). Qed.

(** The head of an ascending list sorts before every member of a
    rearrangement of it. *)
Lemma ascending_head_least x l y l' :
  ascending ts_leb (x :: l) -> Permutation (x :: l) (y :: l') ->
  ts_leb (snd x) (snd y) = true.
Proof.
  intros Hasc Hperm. inversion Hasc as [|? ? _ Hall]; subst.
  assert (Hin : In y (x :: l)).
  { eapply Permutation_in; [apply Permutation_sym, Hperm|now left]. }
  destruct Hin as [<-|Hin]; [apply ts_leb_refl|].
  rewrite Forall_forall in Hall. now apply Hall.
Qed.

(** Two ascending arrangements of the same packets that keep the packets of
    each timestamp in the same order are the same list. *)
Lemma stable_ascending_unique l1 : forall l2,
  ascending ts_leb l1 -> ascending ts_leb l2 ->
  Permutation l1 l2 ->
  (forall t, tied_with ts_leb t l1 = tied_with ts_leb t l2) ->
  l1 = l2.
Proof.
  induction l1 as [|x l1 IH]; intros l2 H1 H2 Hperm Hties.
  - now apply Permutation_nil in Hperm.
  - destruct l2 as [|y l2].
    { apply Permutation_sym, Permutation_nil in Hperm. discriminate. }
    pose proof (ascending_head_least _ _ _ _ H1 Hperm) as Hxy.
    pose proof (ascending_head_least _ _ _ _ H2 (Permutation_sym Hperm)) as Hyx.
    assert (Heq : x = y).
    { specialize (Hties (snd x)). unfold tied_with, ts_tie in Hties. simpl in Hties.
      rewrite ts_leb_refl, Hxy, Hyx in Hties. simpl in Hties. congruence. }
    subst y. f_equal.
    inversion H1; inversion H2; subst.
    apply IH; auto.
    + now apply Permutation_cons_inv in Hperm.
    + intros t. specialize (Hties t). unfold tied_with in *. simpl in Hties.
      destruct (ts_tie ts_leb (snd x) t); congruence.
Qed.

(** X8: the list the materialized instance exposes under [sort] or [to_ft]
    is the only one that is ascending by timestamp, rearranges the decoded
    packets and keeps the packets of every timestamp in capture order: any
    list with these three properties is the exposed one.  The capture is
    one the eager read gets through. *)
Theorem materialized_sorted_list_unique
    fs file interface content to_ft sort verbose l :
  truthy file = true -> truthy interface = false ->
  fs (py_str file) = Some (whole content) ->
  first_escape Ethernet content = None ->
  sort || to_ft = true ->
  ascending ts_leb l ->
  Permutation (ip_packets Ethernet content) l ->
  (forall t, tied_with ts_leb t l = tied_with ts_leb t (ip_packets Ethernet content)) ->
  exists self,
    c_result (__init__ ts_leb Ethernet FlowTable_new push fs file interface
                false true to_ft sort verbose) = Ok self
    /\ self_packets self = Some l.
Proof.
  intros Hfile Hiface Hfs Hclean Hsort Hasc Hperm Hties.
  rewrite (init_materialized ts_leb Ethernet FlowTable_new push _ _ _ _ _ _ _
             Hfile Hiface Hfs Hclean).
  rewrite Hsort. eexists. split; [reflexivity|]. cbn [self_packets]. f_equal.
  apply stable_ascending_unique.
  - apply sort_by_timestamp_ascending; assumption.
  - exact Hasc.
  - eapply perm_trans; [|exact Hperm].
    apply Permutation_sym, sort_by_timestamp_perm.
  - intros t. rewrite Hties. apply sort_by_timestamp_tied; assumption.
Qed.

End StableOrder.

End Coverage.

(** * The further properties on the small instances *)

(** The second pull on the capture of [Demo], started behind its first
    record. *)
Lemma gen_next_reads_to_first_ip_witness :
  (exists (pre : list (record Z)) timestamp packet ip rest,
     tl Demo.capture = pre ++ (timestamp, packet) :: rest
     /\ ip_packets Demo.Ethernet pre = []
     /\ Demo.Ethernet packet = EthIP ip
     /\ gen_next Demo.Ethernet (mk_gen GenSuspended true)
          (mk_file (tl Demo.capture) false) []
        = (Yielded (ip, timestamp), mk_gen GenSuspended true, mk_file rest false,
           [] ++ unpack_log Demo.Ethernet true pre))
  \/ (ip_packets Demo.Ethernet (tl Demo.capture) = []
      /\ gen_next Demo.Ethernet (mk_gen GenSuspended true)
           (mk_file (tl Demo.capture) false) []
         = (StopIteration, mk_gen GenFinished true, mk_file [] false,
            [] ++ unpack_log Demo.Ethernet true (tl Demo.capture))).
Proof.
  apply (gen_next_reads_to_first_ip Demo.Ethernet (mk_gen GenSuspended true)
           (mk_file (tl Demo.capture) false) []);
    [discriminate|reflexivity|reflexivity|reflexivity|reflexivity].
Defined.

(** What that pull does: it passes the ARP record and yields the packet of
    the third record. *)
Lemma demo_second_pull :
  gen_next Demo.Ethernet (mk_gen GenSuspended true)
    (mk_file (tl Demo.capture) false) []
  = (Yielded ([x45; x02], 30%Z), mk_gen GenSuspended true,
     mk_file (skipn 3 Demo.capture) false, []).
Proof. reflexivity. Qed.

Lemma take_from_gen_prefix_witness :
  exists g' (pre rest : list (record Z)) out',
    take_from_gen Demo.Ethernet 3 (read_itr true) (f_open (whole Demo.capture)) [] []
    = (Ok (firstn 3 (ip_packets Demo.Ethernet Demo.capture)), g',
       mk_file rest false, out')
    /\ Demo.capture = pre ++ rest
    /\ List.length (ip_packets Demo.Ethernet rest) = 4.
Proof.
  destruct (take_from_gen_prefix Demo.Ethernet true 3 Demo.capture [] eq_refl)
    as (g' & pre & rest & out' & Htake & Hsplit & _ & Hrest).
  exists g', pre, rest, out'. split; [exact Htake|]. split; [exact Hsplit|].
  rewrite Hrest. reflexivity.
Defined.

Lemma read_itr_prints_witness :
  List.length Demo.capture < 11
  /\ list_of_gen Demo.Ethernet 11 (read_itr true) (f_open (whole Demo.capture)) [] []
     = Some (Ok (ip_packets Demo.Ethernet Demo.capture), mk_gen GenFinished true,
             mk_file [] false, [unpack_message]).
Proof.
  split; [simpl; lia|].
  apply (read_itr_prints_one_line_per_malformed Demo.Ethernet true Demo.capture [] 11);
    [reflexivity|simpl; lia].
Defined.

Lemma read_itr_single_pass_witness :
  exists l g' f' out',
    list_of_gen Demo.Ethernet 11 (read_itr false) (f_open (whole Demo.capture)) [] []
    = Some (Ok l, g', f', out')
    /\ List.length l = 7
    /\ list_of_gen Demo.Ethernet 11 g' (f_open (whole Demo.capture)) [] []
       = Some (Ok [], g', f_open (whole Demo.capture), []).
Proof.
  destruct (read_itr_single_pass Demo.Ethernet false Demo.capture [] 11)
    as (l & g' & f' & out' & Hfirst & Hagain); [reflexivity|simpl; lia|].
  exists l, g', f', out'. split; [exact Hfirst|]. split; [|apply Hagain].
  assert (H : list_of_gen Demo.Ethernet 11 (read_itr false)
                (f_open (whole Demo.capture)) [] []
              = Some (Ok (ip_packets Demo.Ethernet Demo.capture),
                      mk_gen GenFinished false, mk_file [] false, []))
    by reflexivity.
  rewrite H in Hfirst. injection Hfirst as <- _ _ _. reflexivity.
Defined.

Lemma materialized_without_sort_witness :
  exists self packets,
    c_result (Demo.init (Some "./data/dns.cap"%string) None false true false false false)
    = Ok self
    /\ self_packets self = Some packets
    /\ map snd packets = [50; 30; 30; 40; 20; 20; 10]%Z
    /\ get_flow_table self = None.
Proof.
  destruct (materialized_without_sort_keeps_capture_order Z.leb Demo.Ethernet
              Demo.FlowTable_new Demo.push Demo.fs (Some "./data/dns.cap"%string)
              None Demo.capture false eq_refl eq_refl eq_refl eq_refl)
    as (self & packets & Hself & Hpackets & _ & Htimes & Hft & _).
  exists self, packets. repeat split; assumption.
Defined.

Lemma materialized_list_members_witness :
  exists self packets,
    c_result (Demo.init (Some "./data/dns.cap"%string) None false true false true false)
    = Ok self
    /\ self_packets self = Some packets
    /\ In ([x45; x06], 20%Z) packets
    /\ List.length packets = 7.
Proof.
  destruct (materialized_list_members Z.leb Demo.Ethernet
              Demo.FlowTable_new Demo.push Demo.fs (Some "./data/dns.cap"%string)
              None Demo.capture false true false eq_refl eq_refl eq_refl eq_refl)
    as (self & packets & Hself & Hpackets & Hin & Hlen).
  exists self, packets. repeat split; try assumption.
  apply Hin. exists (Demo.ip_frame x06). split; [|reflexivity].
  simpl. do 8 right. left. reflexivity.
Defined.

Lemma demo_sorted_ascending :
  ascending Z.leb (ip_packets Demo.Ethernet DemoSorted.capture).
Proof.
  unfold ascending. simpl. repeat constructor.
Qed.

Lemma materialized_chronological_witness :
  exists self,
    c_result (DemoSorted.init (Some "sorted.pcap"%string) None false true true true false)
    = Ok self
    /\ self_packets self = Some (ip_packets Demo.Ethernet DemoSorted.capture).
Proof.
  destruct (materialized_chronological_capture_unchanged Z.leb Demo.Ethernet
              Demo.FlowTable_new Demo.push DemoSorted.fs (Some "sorted.pcap"%string)
              None DemoSorted.capture true true false
              eq_refl eq_refl eq_refl eq_refl demo_sorted_ascending)
    as (self & Hself & Hpackets & _).
  exists self. split; assumption.
Defined.

Lemma materialized_sorted_list_unique_witness :
  exists self,
    c_result (Demo.init (Some "./data/dns.cap"%string) None false true false true false)
    = Ok self
    /\ self_packets self
       = Some [([x45; x07], 10); ([x45; x05], 20); ([x45; x06], 20);
               ([x45; x02], 30); ([x45; x03], 30); ([x45; x04], 40);
               ([x45; x01], 50)]%Z.
Proof.
  apply (materialized_sorted_list_unique Z.leb Demo.Ethernet
           Demo.FlowTable_new Demo.push Zleb_total Zleb_trans Demo.fs
           (Some "./data/dns.cap"%string) None Demo.capture false true false).
  - reflexivity.
  - reflexivity.
  - reflexivity.
  - reflexivity.
  - reflexivity.
  - unfold ascending. repeat constructor.
  - exact (sort_by_timestamp_perm Z.leb (ip_packets Demo.Ethernet Demo.capture)).
  - intros t.
    exact (sort_by_timestamp_tied Z.leb Zleb_trans t
             (ip_packets Demo.Ethernet Demo.capture)).
Defined.


(** A file that opens but is no capture: the materialized constructor
    raises the reader's [ValueError] and the file stays open; the streaming
    constructor, which reads nothing, returns an instance. *)
Lemma init_succeeds_iff_witness :
  c_result (DemoFaulty.init (Some "notes.txt"%string) None false true false false false)
  = Raise (ValueError "invalid tcpdump header")
  /\ eager_failure DemoFaulty.Ethernet DemoFaulty.no_capture
     = Some (ValueError "invalid tcpdump header")
  /\ exists self,
       c_result (DemoFaulty.init (Some "notes.txt"%string) None true false false false
                   false) = Ok self.
Proof.
  split; [reflexivity|]. split; [reflexivity|].
  apply (proj2 (init_succeeds_iff Z.leb DemoFaulty.Ethernet Demo.FlowTable_new
                  Demo.push DemoFaulty.fs (Some "notes.txt"%string) None
                  true false false false false)).
  split; [reflexivity|]. split; [reflexivity|].
  exists DemoFaulty.no_capture. split; [reflexivity|discriminate].
Defined.

Lemma init_failure_cases_witness :
  (c_file (Demo.init (Some "missing.pcap"%string) None false true true true true) = None
   /\ c_stdout (Demo.init (Some "missing.pcap"%string) None false true true true true) = []
   /\ Demo.fs "missing.pcap" = None)
  /\ (exists f',
        c_file (DemoFaulty.init (Some "mpls.pcap"%string) None false true true true true)
        = Some f'
        /\ f_closed f' = false
        /\ eager_failure DemoFaulty.Ethernet DemoFaulty.mpls_capture
           = Some (IndexError "index out of range")).
Proof.
  split.
  - destruct (init_failure_cases Z.leb Demo.Ethernet Demo.FlowTable_new Demo.push
                Demo.fs (Some "missing.pcap"%string) None false true true true true
                (FileNotFoundError "File missing.pcap not found!") eq_refl)
      as (Hout & [(Hfile & [(H & _)|[(_ & H & _)|[(_ & _ & Hfs & _)|(H & _)]]])
                 |(_ & _ & _ & _ & content & f' & Hfs & _)]);
      try discriminate.
    repeat split; assumption.
  - destruct (init_failure_cases Z.leb DemoFaulty.Ethernet Demo.FlowTable_new Demo.push
                DemoFaulty.fs (Some "mpls.pcap"%string) None false true true true true
                (IndexError "index out of range") eq_refl)
      as (Hout & [(Hfile & _)
                 |(_ & _ & _ & _ & content & f' & Hfs & Hfail & Hf' & Hopen)]);
      [discriminate|].
    exists f'. split; [exact Hf'|]. split; [exact Hopen|].
    injection Hfs as <-. exact Hfail.
Defined.

(** A file that opens but is no capture, in streaming mode: the constructor
    returned an instance, and the first pull makes the reader, whose
    [ValueError] stands before the [try] and reaches the consumer. *)
Lemma read_itr_no_capture_first_pull :
  gen_next DemoFaulty.Ethernet (read_itr false) (f_open DemoFaulty.no_capture) []
  = (Raised (ValueError "invalid tcpdump header"), mk_gen GenFinished false,
     f_open DemoFaulty.no_capture, []).
Proof. reflexivity. Qed.
